(** * runner.py: trust-store construction, TLS profile resolution and
    the server launch of the service entry point.

    The module is embedded shallowly.  Python statements that touch the
    file system or the logger become actions of a small state-and-exception
    monad over a [world] (files and emitted log records); an exception
    aborts the rest of the computation but keeps the effects performed so
    far, as in Python.  External packages ([cryptography.x509], [certifi],
    [ols.constants], [ols.utils.tls]) are interfaces whose operations the
    embedded functions call. *)

From Stdlib Require Import ZArith.
From Stdlib.Strings Require Import Byte Ascii String.
From stdpp Require Import gmap strings list.

Local Open Scope string_scope.
Local Open Scope Z_scope.
Local Open Scope list_scope.
Local Open Scope stdpp_scope.

(** ** Values *)

(** File contents, as read by [open(path, "rb").read()]. *)
Abbreviation bytes := (list Byte.byte) (only parsing).

#[global] Instance byte_eq_dec : EqDecision Byte.byte := Byte.byte_eq_dec.

(** Paths are compared as written: the model has no links and no
    normalisation, so a path names one file. *)
Abbreviation path := string (only parsing).

(** An [x509.Certificate].  The package compares certificates with [==] by
    their canonical (DER) encoding, so a certificate is that encoding. *)
Abbreviation Certificate := (list Byte.byte) (only parsing).

(** ** Exceptions *)

Inductive exn : Type :=
| FileNotFoundError (filename : path)  (* [open], source of [shutil.copyfile] *)
| SameFileError (src dst : path)       (* [shutil.copyfile] *)
| ValueError                           (* the PEM loaders of [x509] *)
| ConfigurationError.                  (* resolution of a security profile *)

Definition exn_class (e : exn) : string :=
  match e with
  | FileNotFoundError _ => "FileNotFoundError"
  | SameFileError _ _ => "SameFileError"
  | ValueError => "ValueError"
  | ConfigurationError => "ConfigurationError"
  end.

(** The [filename] attribute, present on [OSError] and its subclasses. *)
Definition exn_filename (e : exn) : option path :=
  match e with
  | FileNotFoundError p => Some p
  | _ => None
  end.

Inductive result (A : Type) : Type :=
| Ok (a : A)
| Raise (e : exn).
Arguments Ok {A} a.
Arguments Raise {A} e.

(** ** The [logging] module *)

Module logging.
Definition DEBUG : Z := 10.
Definition INFO : Z := 20.
Definition WARNING : Z := 30.

Inductive arg : Type :=
| AStr (s : string)
| AInt (z : Z).

(** A [logging.Logger], as obtained from [logging.getLogger(name)]. *)
Record Logger : Type := getLogger { name : string }.

(** One call of a logger method: the logger, the level, the format
    string and its arguments. *)
Record LogRecord : Type := mkLogRecord {
  logger_name : string;
  levelno : Z;
  msg : string;
  args : list arg
}.
End logging.

(** ** World, and the monad of effects *)

Record world : Type := mkWorld {
  files : gmap path bytes;
  records : list logging.LogRecord
}.

Definition M (A : Type) : Type := world -> result A * world.

Definition ret {A} (a : A) : M A := fun w => (Ok a, w).

Definition bind {A B} (m : M A) (k : A -> M B) : M B :=
  fun w =>
    match m w with
    | (Ok a, w') => k a w'
    | (Raise e, w') => (Raise e, w')
    end.

Definition raise {A} (e : exn) : M A := fun w => (Raise e, w).

(** A pure computation that may raise. *)
Definition lift {A} (r : result A) : M A := fun w => (r, w).

Declare Scope py_scope.
Delimit Scope py_scope with py.
Notation "x <- m ;; k" := (bind m (fun x => k))
  (at level 100, m at next level, right associativity) : py_scope.
Notation "m ;; k" := (bind m (fun _ => k))
  (at level 100, right associativity) : py_scope.
Local Open Scope py_scope.

(** [for x in xs: body(x)] *)
Fixpoint for_each {A} (xs : list A) (body : A -> M unit) : M unit :=
  match xs with
  | [] => ret tt
  | x :: rest => body x ;; for_each rest body
  end.

(** *** Logger methods *)

Definition emit (level : Z) (l : logging.Logger) (fmt : string)
    (a : list logging.arg) : M unit :=
  fun w =>
    (Ok tt,
     mkWorld (files w)
       (records w ++ [logging.mkLogRecord (logging.name l) level fmt a])).

Definition debug := emit logging.DEBUG.
Definition info := emit logging.INFO.
Definition warning := emit logging.WARNING.

(** *** Files *)

(** [with open(p, "rb") as f: f.read()].  The files of the world are
    those the process can open; for any other path [open] raises its
    [OSError], which carries the path and is written [FileNotFoundError]. *)
Definition read_bytes (p : path) : M bytes :=
  fun w =>
    match files w !! p with
    | Some d => (Ok d, w)
    | None => (Raise (FileNotFoundError p), w)
    end.

(** [with open(p, "ab") as f: f.write(d)]; mode [a] creates a missing file. *)
Definition append_bytes (p : path) (d : bytes) : M unit :=
  fun w =>
    (Ok tt, mkWorld (<[p := default [] (files w !! p) ++ d]> (files w)) (records w)).

(** [shutil.copyfile(src, dst)]: a missing source raises
    [FileNotFoundError] (the same-file test finds nothing to compare and
    the source is opened first); an existing file is not copied onto
    itself; otherwise the contents of [dst] are replaced by those of
    [src].  The directory of [dst] is taken to exist and to be writable. *)
Definition shutil_copyfile (src dst : path) : M unit :=
  fun w =>
    match files w !! src with
    | None => (Raise (FileNotFoundError src), w)
    | Some d =>
        if decide (src = dst) then (Raise (SameFileError src dst), w)
        else (Ok tt, mkWorld (<[dst := d]> (files w)) (records w))
    end.

(** [os.path.join(a, b)] of [posixpath]. *)
Definition startswith_sep (s : string) : bool :=
  match s with
  | String c _ => bool_decide (c = "/"%char)
  | EmptyString => false
  end.

Fixpoint endswith_sep (s : string) : bool :=
  match s with
  | EmptyString => false
  | String c EmptyString => bool_decide (c = "/"%char)
  | String _ rest => endswith_sep rest
  end.

Definition os_path_join (a b : string) : string :=
  if startswith_sep b then b
  else if bool_decide (a = "") || endswith_sep a then a +:+ b
  else a +:+ "/" +:+ b.

(** ** Imported packages *)

(** [ols.constants]: the three constants the module reads. *)
Module constants.
Class Values : Type := {
  CERTIFICATE_STORAGE_FILENAME : string;
  DEFAULT_SSL_VERSION : Z;
  DEFAULT_SSL_CIPHERS : string
}.
End constants.

(** [certifi]: [where_] is [certifi.where()], the path of the bundled CA file. *)
Module certifi.
Class Package : Type := {
  where_ : path
}.
End certifi.

(** [cryptography.x509]: the two PEM loaders.  [None] stands for the
    [ValueError] the loaders raise on input they cannot parse. *)
Module x509.
Class Package : Type := {
  load_pem_x509_certificate : bytes -> option Certificate;
  load_pem_x509_certificates : bytes -> option (list Certificate)
}.
End x509.

(** [ols.utils.tls]: the three helpers of the profile resolution, pure
    functions of their arguments that may raise. *)
Module tls.
Class Package : Type := {
  min_tls_version : option string -> string -> result string;
  ssl_tls_version : string -> result Z;
  ciphers_as_string : option (list string) -> string -> result string
}.
End tls.

(** ** Configuration *)

Module config_model.
Record TLSSecurityProfile : Type := {
  profile_type : option string;
  min_tls_version : option string;
  ciphers : option (list string)
}.

Record TLSConfig : Type := {
  tls_key_path : option path;
  tls_certificate_path : option path;
  tls_key_password : option path
}.

Record LoggingConfig : Type := {
  uvicorn_log_level : Z
}.

Record OLSConfig : Type := {
  certificate_directory : path;
  extra_ca : list path;
  tls_security_profile : option TLSSecurityProfile;
  tls_config : TLSConfig;
  logging_config : LoggingConfig;
  max_workers : Z
}.

Record DevConfig : Type := {
  run_on_localhost : bool;
  disable_tls : bool
}.

(** The [config] object of the [ols] package. *)
Record AppConfig : Type := {
  ols_config : OLSConfig;
  dev_config : DevConfig
}.
End config_model.

(** The keyword arguments of the call [uvicorn.run("ols.app.main:app", ...)]. *)
Module uvicorn.
Record run : Type := {
  app : string;
  host : string;
  port : Z;
  workers : Z;
  log_level : Z;
  ssl_keyfile : option path;
  ssl_certfile : option path;
  ssl_keyfile_password : option path;
  ssl_version : Z;
  ssl_ciphers : string;
  access_log : bool
}.
End uvicorn.

(** ** The functions of runner.py *)

Section runner.
Context `{!constants.Values, !certifi.Package, !x509.Package, !tls.Package}.

Import config_model.

(** The module-level [logger], bound by the main block before any of
    the functions below runs. *)
Definition logger : logging.Logger := logging.getLogger "ols".

Definition x509_load_one (data : bytes) : M Certificate :=
  match x509.load_pem_x509_certificate data with
  | Some c => ret c
  | None => raise ValueError
  end.

Definition x509_load_all (data : bytes) : M (list Certificate) :=
  match x509.load_pem_x509_certificates data with
  | Some cs => ret cs
  | None => raise ValueError
  end.

Definition add_ca_to_certificates_store
    (logger : logging.Logger) (cert_path : path) (cert_location : path) : M unit :=
  debug logger "Certifications store location: %s" [logging.AStr cert_location] ;;
  info logger "Adding certificate '%s' to certificates store" [logging.AStr cert_path] ;;
  new_certificate_data <- read_bytes cert_path ;;
  new_cert <- x509_load_one new_certificate_data ;;
  certifi_certs_data <- read_bytes cert_location ;;
  certifi_certs <- x509_load_all certifi_certs_data ;;
  if decide (new_cert ∈ certifi_certs) then
    warning logger "Certificate '%s' is already in certificates store"
      [logging.AStr cert_path]
  else
    append_bytes cert_location new_certificate_data ;;
    debug logger "Written certificate with length %d bytes"
      [logging.AInt (Z.of_nat (length new_certificate_data))].

Definition destination_file_of (ols_config : OLSConfig) : path :=
  os_path_join (certificate_directory ols_config)
    constants.CERTIFICATE_STORAGE_FILENAME.

(** The function has no [return] statement: a caller receives [None].
    The result type leaves room for a path, the value the contract of
    the builder names. *)
Definition generate_certificates_file
    (logger : logging.Logger) (ols_config : OLSConfig) : M (option path) :=
  let certificate_directory := certificate_directory ols_config in
  info logger "Generating certificates file into directory %s"
    [logging.AStr certificate_directory] ;;
  let destination_file :=
    os_path_join certificate_directory constants.CERTIFICATE_STORAGE_FILENAME in
  let certifi_cert_location := certifi.where_ in
  debug logger "Copying certifi certificates file from %s into %s"
    [logging.AStr certifi_cert_location; logging.AStr destination_file] ;;
  shutil_copyfile certifi_cert_location destination_file ;;
  for_each (extra_ca ols_config)
    (fun certificate_path =>
       add_ca_to_certificates_store logger certificate_path destination_file) ;;
  ret None.

Definition get_ssl_version (sec_profile : option TLSSecurityProfile) : M Z :=
  match sec_profile with
  | Some {| profile_type := Some the_profile_type;
            min_tls_version := the_min_tls_version |} =>
      min_tls_version <-
        lift (tls.min_tls_version the_min_tls_version the_profile_type) ;;
      info logger "min TLS version: %s" [logging.AStr min_tls_version] ;;
      ssl_version <- lift (tls.ssl_tls_version min_tls_version) ;;
      info logger "Using SSL version: %s" [logging.AInt ssl_version] ;;
      ret ssl_version
  | _ =>
      info logger "Using default SSL version: %s"
        [logging.AInt constants.DEFAULT_SSL_VERSION] ;;
      ret constants.DEFAULT_SSL_VERSION
  end.

Definition get_ciphers (sec_profile : option TLSSecurityProfile) : M string :=
  match sec_profile with
  | Some {| profile_type := Some the_profile_type; ciphers := the_ciphers |} =>
      ciphers <- lift (tls.ciphers_as_string the_ciphers the_profile_type) ;;
      info logger "Allowing following ciphers: %s" [logging.AStr ciphers] ;;
      ret ciphers
  | _ =>
      info logger "Allowing default ciphers: %s"
        [logging.AStr constants.DEFAULT_SSL_CIPHERS] ;;
      ret constants.DEFAULT_SSL_CIPHERS
  end.

(** [start_uvicorn] ends in the blocking call [uvicorn.run(...)]; the
    model returns the arguments of that call. *)
Definition start_uvicorn (config : AppConfig) : M uvicorn.run :=
  let host :=
    if run_on_localhost (dev_config config) then "localhost" else "0.0.0.0" in
  let port := if disable_tls (dev_config config) then 8080 else 8443 in
  let log_level := uvicorn_log_level (logging_config (ols_config config)) in
  let ssl_keyfile := tls_key_path (tls_config (ols_config config)) in
  let ssl_certfile := tls_certificate_path (tls_config (ols_config config)) in
  let ssl_keyfile_password := tls_key_password (tls_config (ols_config config)) in
  let sec_profile := tls_security_profile (ols_config config) in
  ssl_version <- get_ssl_version sec_profile ;;
  ssl_ciphers <- get_ciphers sec_profile ;;
  ret {| uvicorn.app := "ols.app.main:app";
         uvicorn.host := host;
         uvicorn.port := port;
         uvicorn.workers := max_workers (ols_config config);
         uvicorn.log_level := log_level;
         uvicorn.ssl_keyfile := ssl_keyfile;
         uvicorn.ssl_certfile := ssl_certfile;
         uvicorn.ssl_keyfile_password := ssl_keyfile_password;
         uvicorn.ssl_version := ssl_version;
         uvicorn.ssl_ciphers := ssl_ciphers;
         uvicorn.access_log := bool_decide (log_level < logging.INFO) |}.

End runner.

(** ** What the trust store is meant to contain *)

Section trust_store_contents.
Context `{!x509.Package}.

(** The extras that reach the store, in the order processed: those whose
    certificate is neither among [cs] nor brought by an earlier extra. *)
Fixpoint appended (cs : list Certificate) (extras : list (bytes * Certificate))
    : list (bytes * Certificate) :=
  match extras with
  | [] => []
  | (data, c) :: rest =>
      if decide (c ∈ cs) then appended cs rest
      else (data, c) :: appended (cs ++ [c]) rest
  end.

(** The extras add one certificate each, at the stores the run goes
    through: where the run appends [data], whose certificate [c] is new,
    the store that results parses as the certificates before it followed
    by [c].  Nothing is asked of a file that is skipped, nor of stores the
    run does not reach. *)
Fixpoint adds_one_each (store : bytes) (cs : list Certificate)
    (extras : list (bytes * Certificate)) : Prop :=
  match extras with
  | [] => True
  | (data, c) :: rest =>
      if decide (c ∈ cs) then adds_one_each store cs rest
      else
        x509.load_pem_x509_certificates (store ++ data) = Some (cs ++ [c])
        ∧ adds_one_each (store ++ data) (cs ++ [c]) rest
  end.

(** An extra-CA path the builder cannot use: [open] finds no file it can
    read there (the path is not among the files of the world), or the
    contents do not load as a certificate. *)
Definition unusable (fs : gmap path bytes) (p : path) : Prop :=
  fs !! p = None ∨
  ∃ data, fs !! p = Some data ∧ x509.load_pem_x509_certificate data = None.

(** [p] is an extra-CA path, distinct from the store itself, with the
    file contents [dc.1], which load as the certificate [dc.2]. *)
Definition extra_file (fs : gmap path bytes) (dest : path)
    (p : path) (dc : bytes * Certificate) : Prop :=
  p ≠ dest ∧ fs !! p = Some dc.1
  ∧ x509.load_pem_x509_certificate dc.1 = Some dc.2.
End trust_store_contents.

(** The records [add_ca_to_certificates_store] logs. *)
Definition entry_records (l : logging.Logger) (cert_path cert_location : path)
    : list logging.LogRecord :=
  [logging.mkLogRecord (logging.name l) logging.DEBUG
     "Certifications store location: %s" [logging.AStr cert_location];
   logging.mkLogRecord (logging.name l) logging.INFO
     "Adding certificate '%s' to certificates store" [logging.AStr cert_path]].

Definition duplicate_record (l : logging.Logger) (cert_path : path)
    : logging.LogRecord :=
  logging.mkLogRecord (logging.name l) logging.WARNING
    "Certificate '%s' is already in certificates store" [logging.AStr cert_path].

Definition written_record (l : logging.Logger) (data : bytes) : logging.LogRecord :=
  logging.mkLogRecord (logging.name l) logging.DEBUG
    "Written certificate with length %d bytes" [logging.AInt (Z.of_nat (length data))].

(** The records [generate_certificates_file] logs before it copies. *)
Definition start_records (l : logging.Logger) (directory source destination : path)
    : list logging.LogRecord :=
  [logging.mkLogRecord (logging.name l) logging.INFO
     "Generating certificates file into directory %s" [logging.AStr directory];
   logging.mkLogRecord (logging.name l) logging.DEBUG
     "Copying certifi certificates file from %s into %s"
     [logging.AStr source; logging.AStr destination]].

Section build_inputs.
Context `{!constants.Values, !certifi.Package, !x509.Package}.

(** What a run of the builder reads: the bundle of [certifi], with
    contents [base] parsing as [cb], and one file per configured extra
    path, each adding its one certificate where it is appended. *)
Definition build_inputs (cfg : config_model.OLSConfig) (base : bytes)
    (cb : list Certificate) (extras : list (bytes * Certificate)) (w : world) : Prop :=
  certifi.where_ ≠ destination_file_of cfg ∧
  files w !! certifi.where_ = Some base ∧
  x509.load_pem_x509_certificates base = Some cb ∧
  Forall2 (extra_file (files w) (destination_file_of cfg))
    (config_model.extra_ca cfg) extras ∧
  adds_one_each base cb extras.
End build_inputs.

(** ** The helpers of [ols.utils.tls] *)

Module tls_spec.
(** The policy of one named profile. *)
Record ProfilePolicy : Type := {
  default_min_tls_version : string;
  fixed_ciphers : list string
}.

(** The policy table: the recognised profile names with their policies,
    the protocol versions the TLS layer knows, and the separator of the
    cipher string. *)
Record PolicyTable : Type := {
  profiles : gmap string ProfilePolicy;
  protocol_versions : gmap string Z;
  separator : string
}.

Definition CUSTOM_TYPE : string := "custom".

Section helpers.
Variable table : PolicyTable.

(** Modelled from the spec: [tls.min_tls_version] of ols/utils/tls.py,
    which is not among the sources.  The minimum version is the
    explicit one if set, otherwise the named profile's policy default;
    an unrecognised profile type fails with [ConfigurationError]. *)
Definition min_tls_version (specified : option string) (profile : string)
    : result string :=
  match profiles table !! profile with
  | None => Raise ConfigurationError
  | Some policy => Ok (default (default_min_tls_version policy) specified)
  end.

(** Modelled from the spec: [tls.ssl_tls_version] of ols/utils/tls.py,
    which is not among the sources.  Maps the abstract minimum version
    to the protocol-version value of the TLS layer; an unmapped version
    fails with [ConfigurationError]. *)
Definition ssl_tls_version (version : string) : result Z :=
  match protocol_versions table !! version with
  | None => Raise ConfigurationError
  | Some v => Ok v
  end.

(** Modelled from the spec: [tls.ciphers_as_string] of ols/utils/tls.py,
    which is not among the sources.  The cipher list is the profile's
    own list for the custom profile (empty when none is given) and the
    named profile's fixed list otherwise, joined in order with the
    separator; an unrecognised profile type fails with
    [ConfigurationError]. *)
Definition ciphers_as_string (ciphers : option (list string)) (profile : string)
    : result string :=
  match profiles table !! profile with
  | None => Raise ConfigurationError
  | Some policy =>
      if decide (profile = CUSTOM_TYPE)
      then Ok (String.concat (separator table) (default [] ciphers))
      else Ok (String.concat (separator table) (fixed_ciphers policy))
  end.

Definition package : tls.Package := {|
  tls.min_tls_version := min_tls_version;
  tls.ssl_tls_version := ssl_tls_version;
  tls.ciphers_as_string := ciphers_as_string
|}.
End helpers.
End tls_spec.

(** ** A small installation, to run the functions on *)

Module sample.
Import config_model.

Definition values : constants.Values := {|
  constants.CERTIFICATE_STORAGE_FILENAME := "ols.pem";
  constants.DEFAULT_SSL_VERSION := 17;
  constants.DEFAULT_SSL_CIPHERS := "TLSv1"
|}.

Definition certifi_package : certifi.Package := {|
  certifi.where_ := "/site-packages/certifi/cacert.pem"
|}.

(** A miniature armour: a certificate is written as its encoding, which
    holds no line feed, followed by a line feed.  A store is a sequence
    of such lines; an unterminated last line or an empty store does not
    load. *)
Fixpoint parse_lines (line : bytes) (data : bytes) : option (list Certificate) :=
  match data with
  | [] => match line with [] => Some [] | _ => None end
  | b :: rest =>
      if decide (b = x0a) then cons line <$> parse_lines [] rest
      else parse_lines (line ++ [b]) rest
  end.

Definition load_one (data : bytes) : option Certificate :=
  match parse_lines [] data with
  | Some (c :: _) => Some c
  | _ => None
  end.

Definition load_all (data : bytes) : option (list Certificate) :=
  match parse_lines [] data with
  | Some (c :: cs) => Some (c :: cs)
  | _ => None
  end.

Definition x509_package : x509.Package := {|
  x509.load_pem_x509_certificate := load_one;
  x509.load_pem_x509_certificates := load_all
|}.

Definition table : tls_spec.PolicyTable := {|
  tls_spec.profiles :=
    {[ "modern" := {| tls_spec.default_min_tls_version := "VersionTLS13";
                      tls_spec.fixed_ciphers :=
                        ["TLS_AES_128_GCM_SHA256"; "TLS_AES_256_GCM_SHA384"] |};
       "intermediate" := {| tls_spec.default_min_tls_version := "VersionTLS12";
                            tls_spec.fixed_ciphers :=
                              ["TLS_AES_128_GCM_SHA256"; "ECDHE-RSA-AES128-GCM-SHA256"] |};
       "old" := {| tls_spec.default_min_tls_version := "VersionTLS10";
                   tls_spec.fixed_ciphers :=
                     ["TLS_AES_128_GCM_SHA256"; "AES128-SHA"] |};
       "custom" := {| tls_spec.default_min_tls_version := "VersionTLS12";
                      tls_spec.fixed_ciphers := [] |} ]};
  tls_spec.protocol_versions :=
    {[ "VersionTLS10" := 769; "VersionTLS11" := 770;
       "VersionTLS12" := 771; "VersionTLS13" := 772 ]};
  tls_spec.separator := ":"
|}.

Definition tls_package : tls.Package := tls_spec.package table.

(** Certificates and files. *)
Definition cert_a : Certificate := [x41].
Definition cert_b : Certificate := [x42].
Definition cert_c : Certificate := [x43].
Definition pem (c : Certificate) : bytes := c ++ [x0a].

Definition bundle : bytes := pem cert_a.

Definition dest : path := "/tmp/trust/ols.pem".

Definition disk : gmap path bytes :=
  {[ "/site-packages/certifi/cacert.pem" := bundle;
     "/etc/extra/b.pem" := pem cert_b;
     "/etc/extra/c.pem" := pem cert_c;
     "/etc/extra/a.pem" := pem cert_a;
     "/etc/extra/broken.pem" := [x42] ]}.

Definition w0 : world := mkWorld disk [].

(** A second machine: same certificates, other files and an old store. *)
Definition w1 : world :=
  mkWorld (<[dest := pem cert_c]> (<["/etc/motd" := [x68; x69]]> disk))
    [logging.mkLogRecord "ols" logging.INFO "Config loaded from %s" [logging.AStr "rcsconfig.yaml"]].

Definition no_tls : TLSConfig := {|
  tls_key_path := None;
  tls_certificate_path := None;
  tls_key_password := None
|}.

Definition ols (extras : list path) (profile : option TLSSecurityProfile)
    (level : Z) (nworkers : Z) : OLSConfig := {|
  certificate_directory := "/tmp/trust";
  extra_ca := extras;
  tls_security_profile := profile;
  tls_config := no_tls;
  logging_config := {| uvicorn_log_level := level |};
  max_workers := nworkers
|}.

Definition app_config (localhost notls : bool) (profile : option TLSSecurityProfile)
    (level : Z) (nworkers : Z) : AppConfig := {|
  ols_config := ols [] profile level nworkers;
  dev_config := {| run_on_localhost := localhost; disable_tls := notls |}
|}.

Definition profile (type version : option string) (cs : option (list string))
    : TLSSecurityProfile := {|
  profile_type := type;
  min_tls_version := version;
  ciphers := cs
|}.
End sample.

(** ** The environment and the main block *)

(** [os.environ]. *)
Abbreviation environment := (gmap string string) (only parsing).

(** [tempfile]: [gettempdir] is the value of [tempfile.gettempdir()]. *)
Module tempfile.
Class Package : Type := {
  gettempdir : string
}.
End tempfile.

(** The objects [configure_hugging_face_envs] inspects.  [hasattr] may
    find an attribute or not; an attribute that is there may hold [None]. *)
Module objects.
Inductive attribute (A : Type) : Type :=
| Absent
| Present (a : A).
Arguments Absent {A}.
Arguments Present {A} a.

Record ReferenceContent : Type := {
  embeddings_model_path : attribute (option path)
}.

(** [config.ols_config]: the fields of [config_model.OLSConfig], and the
    attribute [reference_content]. *)
Record OLSConfig : Type := {
  fields : config_model.OLSConfig;
  reference_content : attribute (option ReferenceContent)
}.

(** The [config] object after [reload_from_yaml_file]. *)
Record Config : Type := {
  ols_config : OLSConfig;
  dev_config : config_model.DevConfig
}.

Definition app_config (config : Config) : config_model.AppConfig := {|
  config_model.ols_config := fields (ols_config config);
  config_model.dev_config := dev_config config
|}.
End objects.

(** The collaborators of the main block that live outside runner.py.
    Each is taken as a function of its arguments that returns or raises:
    the loader of the configuration reads the file system, [resolve] is
    [Path(p).resolve()], [query_redactor] the property of that name. *)
Module ols.
Class Package : Type := {
  reload_from_yaml_file : path -> gmap path bytes -> result objects.Config;
  configure_logging : config_model.LoggingConfig -> result unit;
  resolve : path -> string;
  use_k8s_auth : config_model.OLSConfig -> result bool;
  query_redactor : objects.Config -> result unit
}.
End ols.

(** The process: its environment, the world of files and log records,
    and the targets of the threads started so far. *)
Record process : Type := mkProcess {
  environ : gmap string string;
  os_world : world;
  threads : list string
}.

Definition P (A : Type) : Type := process -> result A * process.

Definition retP {A} (a : A) : P A := fun s => (Ok a, s).

Definition bindP {A B} (m : P A) (k : A -> P B) : P B :=
  fun s =>
    match m s with
    | (Ok a, s') => k a s'
    | (Raise e, s') => (Raise e, s')
    end.

Declare Scope proc_scope.
Delimit Scope proc_scope with proc.
Notation "x <- m ;; k" := (bindP m (fun x => k))
  (at level 100, m at next level, right associativity) : proc_scope.
Notation "m ;; k" := (bindP m (fun _ => k))
  (at level 100, right associativity) : proc_scope.

(** An action on files and log records, run inside the process. *)
Definition in_world {A} (m : M A) : P A :=
  fun s =>
    match m (os_world s) with
    | (r, w') => (r, mkProcess (environ s) w' (threads s))
    end.

(** A function that assigns into [os.environ]. *)
Definition on_environ (f : environment -> environment) : P unit :=
  fun s => (Ok tt, mkProcess (f (environ s)) (os_world s) (threads s)).

(** [os.environ.get(key, fallback)] *)
Definition environ_get (key fallback : string) : P string :=
  fun s => (Ok (default fallback (environ s !! key)), s).

(** A call that returns or raises and changes nothing here. *)
Definition call {A} (r : result A) : P A := fun s => (r, s).

(** [threading.Thread(target=...).start()]; what the thread does is not
    part of the main path. *)
Definition thread_start (target : string) : P unit :=
  fun s => (Ok tt, mkProcess (environ s) (os_world s) (threads s ++ [target])).

Section main_block.
Context `{!constants.Values, !certifi.Package, !x509.Package, !tls.Package}.
Context `{!tempfile.Package, !ols.Package}.

(** Truth value of the configured embeddings path: [None] and the empty
    string are false. *)
Definition truthy_path (value : option path) : bool :=
  match value with
  | Some p => negb (bool_decide (p = ""))
  | None => false
  end.

Definition configure_hugging_face_envs
    (ols_config : option objects.OLSConfig) (env : environment) : environment :=
  match ols_config with
  | Some the_config =>
      match objects.reference_content the_config with
      | objects.Present (Some content) =>
          match objects.embeddings_model_path content with
          | objects.Present value =>
              if truthy_path value then
                let env := <["TRANSFORMERS_CACHE" := default "" value]> env in
                <["TRANSFORMERS_OFFLINE" := "1"]> env
              else env
          | objects.Absent => env
          end
      | _ => env
      end
  | None => env
  end.

Definition configure_gradio_ui_envs (env : environment) : environment :=
  let env := <["GRADIO_ANALYTICS_ENABLED" := "false"]> env in
  let tempdir := os_path_join tempfile.gettempdir "matplotlib" in
  <["MPLCONFIGDIR" := tempdir]> env.

Local Open Scope proc_scope.

(** The block under [if __name__ == "__main__":].  The import of
    [ols.config] is taken to succeed and to leave the environment and the
    files alone.  The block ends in [start_uvicorn()], whose model returns
    the arguments of the launch. *)
Definition main : P uvicorn.run :=
  on_environ configure_gradio_ui_envs ;;
  cfg_file <- environ_get "RCS_CONFIG_FILE" "rcsconfig.yaml" ;;
  config <- (fun s => (ols.reload_from_yaml_file cfg_file (files (os_world s)), s)) ;;
  let ols_config := objects.ols_config config in
  call (ols.configure_logging
          (config_model.logging_config (objects.fields ols_config))) ;;
  let logger := logging.getLogger "ols" in
  in_world (info logger "Config loaded from %s" [logging.AStr (ols.resolve cfg_file)]) ;;
  on_environ (configure_hugging_face_envs (Some ols_config)) ;;
  in_world (generate_certificates_file logger (objects.fields ols_config)) ;;
  k8s <- call (ols.use_k8s_auth (objects.fields ols_config)) ;;
  (if k8s : bool then in_world (info logger "Initializing k8s auth" [])
   else retP tt) ;;
  call (ols.query_redactor config) ;;
  thread_start "load_index" ;;
  in_world (start_uvicorn (objects.app_config config)).

End main_block.

(** A small process, to run the main block on. *)
Module sample_main.
Definition tempfile_package : tempfile.Package := {|
  tempfile.gettempdir := "/tmp"
|}.

Definition reference : objects.ReferenceContent := {|
  objects.embeddings_model_path := objects.Present (Some "/models/embeddings")
|}.

Definition config (profile : option config_model.TLSSecurityProfile) : objects.Config := {|
  objects.ols_config := {|
    objects.fields :=
      sample.ols ["/etc/extra/b.pem"; "/etc/extra/a.pem"] profile 10 2;
    objects.reference_content := objects.Present (Some reference)
  |};
  objects.dev_config := {|
    config_model.run_on_localhost := false;
    config_model.disable_tls := false
  |}
|}.

(** The loader: the file [/etc/rcs/config.yaml] holds [config None], the
    file [/etc/rcs/strict.yaml] a configuration with an unknown profile;
    any other file is missing or does not load. *)
Definition reload_from_yaml_file (p : path) (fs : gmap path bytes)
    : result objects.Config :=
  match fs !! p with
  | None => Raise (FileNotFoundError p)
  | Some _ =>
      if decide (p = "/etc/rcs/config.yaml") then Ok (config None)
      else if decide (p = "/etc/rcs/strict.yaml")
      then Ok (config (Some (sample.profile (Some "ultramodern") None None)))
      else Raise ValueError
  end.

Definition ols_package : ols.Package := {|
  ols.reload_from_yaml_file := reload_from_yaml_file;
  ols.configure_logging := fun _ => Ok tt;
  ols.resolve := fun p => p;
  ols.use_k8s_auth := fun _ => Ok true;
  ols.query_redactor := fun _ => Ok tt
|}.

Definition disk : gmap path bytes :=
  <["/etc/rcs/config.yaml" := [x61]]> (<["/etc/rcs/strict.yaml" := [x62]]> sample.disk).

Definition boot (config_file : option string) : process := {|
  environ :=
    match config_file with
    | Some p => {[ "RCS_CONFIG_FILE" := p; "GRADIO_ANALYTICS_ENABLED" := "true" ]}
    | None => {[ "GRADIO_ANALYTICS_ENABLED" := "true" ]}
    end;
  os_world := mkWorld disk [];
  threads := []
|}.
End sample_main.

(** * Properties *)

Example os_path_join_plain :
  os_path_join "/tmp/trust" "ols.pem" = "/tmp/trust/ols.pem".
Proof. reflexivity. Qed.

Example os_path_join_slash :
  os_path_join "/tmp/trust/" "ols.pem" = "/tmp/trust/ols.pem".
Proof. reflexivity. Qed.

Example os_path_join_absolute :
  os_path_join "/tmp/trust" "/etc/ols.pem" = "/etc/ols.pem".
Proof. reflexivity. Qed.

(** ** The certificate store *)

Section certificate_store.
Context `{!constants.Values, !certifi.Package, !x509.Package}.
Implicit Types (w : world) (l : logging.Logger) (p : path).
Implicit Types (cs : list Certificate) (extras : list (bytes * Certificate)).

Import config_model.

(** One call, case by case. *)
Lemma add_ca_run l cert_path cert_location w :
  add_ca_to_certificates_store l cert_path cert_location w =
  let entered :=
    mkWorld (files w) (records w ++ entry_records l cert_path cert_location) in
  match files w !! cert_path with
  | None => (Raise (FileNotFoundError cert_path), entered)
  | Some data =>
    match x509.load_pem_x509_certificate data with
    | None => (Raise ValueError, entered)
    | Some c =>
      match files w !! cert_location with
      | None => (Raise (FileNotFoundError cert_location), entered)
      | Some store =>
        match x509.load_pem_x509_certificates store with
        | None => (Raise ValueError, entered)
        | Some cs =>
          if decide (c ∈ cs) then
            (Ok tt,
             mkWorld (files w)
               (records w ++ entry_records l cert_path cert_location
                  ++ [duplicate_record l cert_path]))
          else
            (Ok tt,
             mkWorld (<[cert_location := store ++ data]> (files w))
               (records w ++ entry_records l cert_path cert_location
                  ++ [written_record l data]))
        end
      end
    end
  end.
Proof.
  unfold add_ca_to_certificates_store, bind, debug, info, warning, emit,
    read_bytes, x509_load_one, x509_load_all, append_bytes, ret, raise,
    entry_records, duplicate_record, written_record.
  destruct w as [fs recs]. cbn [files records].
  rewrite <- !(assoc_L (++)). cbn [app].
  destruct (fs !! cert_path) as [data|]; [|reflexivity].
  destruct (x509.load_pem_x509_certificate data) as [c|]; [|reflexivity].
  cbn [files records].
  destruct (fs !! cert_location) as [store|] eqn:Hstore; [|reflexivity].
  destruct (x509.load_pem_x509_certificates store) as [cs|]; [|reflexivity].
  destruct (decide (c ∈ cs)); cbn [files records];
    rewrite ?Hstore, <- ?(assoc_L (++)); reflexivity.
Qed.

(** A call writes to the store file only, and never removes it. *)
Lemma add_ca_frame l cert_path cert_location w p :
  p ≠ cert_location →
  files (add_ca_to_certificates_store l cert_path cert_location w).2 !! p
  = files w !! p.
Proof.
  intros Hp. rewrite add_ca_run. cbn zeta.
  repeat case_match; cbn [snd files]; try reflexivity.
  by rewrite lookup_insert_ne.
Qed.

Lemma add_ca_keeps_store l cert_path cert_location w :
  is_Some (files w !! cert_location) →
  is_Some (files (add_ca_to_certificates_store l cert_path cert_location w).2
             !! cert_location).
Proof.
  intros [store Hs]. rewrite add_ca_run. cbn zeta. rewrite Hs.
  repeat case_match; cbn [snd files]; rewrite ?lookup_insert_eq, ?Hs; eauto.
Qed.

Lemma for_each_add_ca_frame l dest ps w p :
  p ≠ dest →
  files (for_each ps (λ q, add_ca_to_certificates_store l q dest) w).2 !! p
  = files w !! p.
Proof.
  intros Hp. revert w. induction ps as [|q ps IH]; intros w; [reflexivity|].
  cbn [for_each]. unfold bind.
  pose proof (add_ca_frame l q dest w p Hp) as Hq.
  destruct (add_ca_to_certificates_store l q dest w) as [[[]|e] w'];
    cbn [snd] in *.
  - by rewrite IH.
  - exact Hq.
Qed.

Lemma for_each_add_ca_keeps_store l dest ps w :
  is_Some (files w !! dest) →
  is_Some (files (for_each ps (λ q, add_ca_to_certificates_store l q dest) w).2
             !! dest).
Proof.
  revert w. induction ps as [|q ps IH]; intros w Hs; [exact Hs|].
  cbn [for_each]. unfold bind.
  pose proof (add_ca_keeps_store l q dest w Hs) as Hq.
  destruct (add_ca_to_certificates_store l q dest w) as [[[]|e] w'];
    cbn [snd] in *.
  - by apply IH.
  - exact Hq.
Qed.

(** *** What [appended] keeps *)

Lemma appended_fresh cs extras c :
  c ∈ (appended cs extras).*2 → (c ∉ cs) ∧ c ∈ (extras.*2).
Proof.
  revert cs. induction extras as [|[d c'] extras IH]; intros cs; cbn.
  - by intros ?%elem_of_nil.
  - destruct (decide (c' ∈ cs)) as [Hin|Hout]; cbn.
    + intros [? ?]%IH. split; [done|]. apply elem_of_cons. by right.
    + intros [->|[Hn Hi]%IH]%elem_of_cons.
      * split; [done|]. apply elem_of_cons. by left.
      * split; [|apply elem_of_cons; by right].
        intros ?. apply Hn, elem_of_app. by left.
Qed.

Lemma appended_NoDup cs extras : NoDup (appended cs extras).*2.
Proof.
  revert cs. induction extras as [|[d c] extras IH]; intros cs; cbn.
  - by apply NoDup_nil.
  - destruct (decide (c ∈ cs)); cbn; [apply IH|].
    apply NoDup_cons. split; [|apply IH].
    intros [Hn _]%appended_fresh. apply Hn, elem_of_app. right.
    by apply list_elem_of_singleton.
Qed.

Lemma appended_covers cs extras c :
  c ∈ (extras.*2) → c ∈ cs ++ (appended cs extras).*2.
Proof.
  revert cs. induction extras as [|[d c'] extras IH]; intros cs; cbn.
  - by intros ?%elem_of_nil.
  - intros [->|Hin]%elem_of_cons; destruct (decide (c' ∈ cs)); cbn.
    + apply elem_of_app. by left.
    + apply elem_of_app. right. apply elem_of_cons. by left.
    + by apply IH.
    + specialize (IH (cs ++ [c']) Hin).
      by rewrite <- (assoc_L (++)) in IH.
Qed.

Lemma appended_keeps_NoDup cs extras :
  NoDup cs → NoDup (cs ++ (appended cs extras).*2).
Proof.
  intros Hcs. apply NoDup_app. split; [done|]. split; [|apply appended_NoDup].
  intros c Hc [Hn _]%appended_fresh. by apply Hn.
Qed.

(** *** The loop over the extras *)

Lemma extra_file_insert fs dest v ps extras :
  Forall2 (extra_file fs dest) ps extras →
  Forall2 (extra_file (<[dest := v]> fs) dest) ps extras.
Proof.
  intros Hall. eapply Forall2_impl; [exact Hall|]. intros q dc (Hq & Hf & Hc).
  split; [done|]. split; [|done]. by rewrite lookup_insert_ne.
Qed.

Lemma for_each_add_ca_merge l dest ps extras :
  ∀ w store cs,
    Forall2 (extra_file (files w) dest) ps extras →
    adds_one_each store cs extras →
    files w !! dest = Some store →
    x509.load_pem_x509_certificates store = Some cs →
    ∃ recs,
      for_each ps (λ q, add_ca_to_certificates_store l q dest) w
      = (Ok tt,
         mkWorld (<[dest := store ++ concat (appended cs extras).*1]> (files w)) recs)
      ∧ x509.load_pem_x509_certificates (store ++ concat (appended cs extras).*1)
        = Some (cs ++ (appended cs extras).*2).
Proof.
  revert extras. induction ps as [|q ps IH];
    intros extras w store cs Hall Hone Hstore Hcs;
    inversion Hall as [|? [d c] ? extras' (Hq & Hf & Hc) Hall']; subst.
  - exists (records w). cbn. rewrite !(right_id_L [] (++)).
    split; [|done]. rewrite insert_id by done. by destruct w.
  - cbn [for_each]. unfold bind. rewrite add_ca_run. cbn zeta.
    cbn [fst snd] in Hf, Hc. rewrite Hf, Hc, Hstore, Hcs.
    cbn [appended adds_one_each] in *.
    destruct (decide (c ∈ cs)) as [Hin|Hout].
    + set (w' := mkWorld _ _).
      destruct (IH extras' w' store cs) as (recs & Hrun & Hload); [done..|].
      exists recs. by split.
    + destruct Hone as [Hadd Hone]. set (w' := mkWorld _ _).
      destruct (IH extras' w' (store ++ d) (cs ++ [c])) as (recs & Hrun & Hload).
      * by apply extra_file_insert.
      * done.
      * apply lookup_insert_eq.
      * done.
      * exists recs. cbn [fmap list_fmap fst snd concat].
        rewrite (assoc_L (++) store d). split.
        -- rewrite Hrun. subst w'. cbn [files]. by rewrite insert_insert_eq.
        -- rewrite Hload. by rewrite <- (assoc_L (++) cs [c]).
Qed.

(** [for_each] over a concatenation. *)
Lemma for_each_app {A} (xs ys : list A) (body : A → M unit) w :
  for_each (xs ++ ys) body w
  = match for_each xs body w with
    | (Ok _, w') => for_each ys body w'
    | (Raise e, w') => (Raise e, w')
    end.
Proof.
  revert w. induction xs as [|x xs IH]; intros w; [reflexivity|].
  cbn [app for_each]. unfold bind.
  destruct (body x w) as [[[]|e] w']; [apply IH|reflexivity].
Qed.

(** A loop that raises does so in one of its calls, and ends where that
    call ends. *)
Lemma for_each_raise_inv {A} (xs : list A) (body : A → M unit) w e w' :
  for_each xs body w = (Raise e, w') →
  ∃ x w0, x ∈ xs ∧ body x w0 = (Raise e, w').
Proof.
  revert w. induction xs as [|x xs IH]; intros w; [done|].
  cbn [for_each]. unfold bind.
  destruct (body x w) as [[[]|e0] w1] eqn:Hbody.
  - intros (y & w0 & Hy & Hrun)%IH. exists y, w0. split; [|done].
    apply elem_of_cons. by right.
  - intros [= <- <-]. exists x, w. split; [|done]. apply elem_of_cons. by left.
Qed.

(** *** The builder, case by case *)

Lemma generate_run l cfg w :
  generate_certificates_file l cfg w =
  let dest := destination_file_of cfg in
  let started :=
    records w ++ start_records l (certificate_directory cfg) certifi.where_ dest in
  match files w !! certifi.where_ with
  | None => (Raise (FileNotFoundError certifi.where_), mkWorld (files w) started)
  | Some base =>
      if decide (certifi.where_ = dest) then
        (Raise (SameFileError certifi.where_ dest), mkWorld (files w) started)
      else
        match for_each (extra_ca cfg)
                (λ q, add_ca_to_certificates_store l q dest)
                (mkWorld (<[dest := base]> (files w)) started) with
        | (Ok _, w') => (Ok None, w')
        | (Raise e, w') => (Raise e, w')
        end
  end.
Proof.
  unfold generate_certificates_file, destination_file_of, bind, info, debug,
    emit, shutil_copyfile, ret, start_records.
  destruct w as [fs recs]. cbn [files records].
  rewrite <- !(assoc_L (++)). cbn [app].
  destruct (fs !! certifi.where_); [|reflexivity].
  destruct (decide _); reflexivity.
Qed.

Lemma unusable_frame (fs fs' : gmap path bytes) p :
  fs' !! p = fs !! p → unusable fs p → unusable fs' p.
Proof. unfold unusable. by intros ->. Qed.

Lemma add_ca_unusable l p dest w :
  unusable (files w) p →
  ∃ e, (add_ca_to_certificates_store l p dest w).1 = Raise e.
Proof.
  intros [Hnone|(data & Hsome & Hbad)]; rewrite add_ca_run; cbn zeta.
  - rewrite Hnone. eauto.
  - rewrite Hsome, Hbad. eauto.
Qed.

Lemma for_each_add_ca_unusable l dest ps :
  ∀ w p,
    p ∈ ps → p ≠ dest → unusable (files w) p →
    ∃ e, (for_each ps (λ q, add_ca_to_certificates_store l q dest) w).1 = Raise e.
Proof.
  induction ps as [|q ps IH]; intros w p Hin Hp Hbad.
  - by apply elem_of_nil in Hin.
  - cbn [for_each]. unfold bind.
    apply elem_of_cons in Hin as [->|Hin].
    + destruct (add_ca_unusable l q dest w Hbad) as [e He].
      destruct (add_ca_to_certificates_store l q dest w) as [[[]|e'] w'];
        cbn [fst] in *; [discriminate|eauto].
    + pose proof (add_ca_frame l q dest w p Hp) as Hframe.
      destruct (add_ca_to_certificates_store l q dest w) as [[[]|e'] w'];
        cbn [fst snd] in *; [|eauto].
      apply (IH w' p); [done..|]. by apply (unusable_frame (files w)).
Qed.

(** *** The claims on the certificate store *)

(** C3.  When the certificate file and the store both load,
    [add_ca_to_certificates_store] does one of two things.  If the
    certificate loaded from [cert_path] equals a certificate of the
    store, it logs a WARNING record and leaves every file as it was.
    Otherwise the new store is the old contents followed by exactly the
    bytes read from [cert_path], and no warning is logged. *)
Theorem add_ca_skips_duplicate_or_appends
    l cert_path cert_location w data c store cs :
  files w !! cert_path = Some data →
  x509.load_pem_x509_certificate data = Some c →
  files w !! cert_location = Some store →
  x509.load_pem_x509_certificates store = Some cs →
  (c ∈ cs →
     add_ca_to_certificates_store l cert_path cert_location w
     = (Ok tt,
        mkWorld (files w)
          (records w ++ entry_records l cert_path cert_location
             ++ [duplicate_record l cert_path]))
     ∧ logging.levelno (duplicate_record l cert_path) = logging.WARNING)
  ∧ (c ∉ cs →
     add_ca_to_certificates_store l cert_path cert_location w
     = (Ok tt,
        mkWorld (<[cert_location := store ++ data]> (files w))
          (records w ++ entry_records l cert_path cert_location
             ++ [written_record l data]))).
Proof.
  intros Hdata Hc Hstore Hcs.
  split; intros Hin; rewrite add_ca_run; cbn zeta;
    rewrite Hdata, Hc, Hstore, Hcs;
    destruct (decide (c ∈ cs)); done.
Qed.

(** C6, as amended.  An extra-CA path that cannot be read, or whose
    contents do not load as a PEM certificate, is never skipped, and the
    failure reaches the caller of the builder as it was raised.  The call
    for such a path raises the error of [open], naming the path,
    respectively the loader's [ValueError], which names no path; it
    changes no file, and the last record logged names the path.  A build
    whose extra-CA list holds such a path (other than the store itself)
    raises, and its exception and final world are those of the step that
    failed: the copy of the bundle, or one call for a listed path.  When
    the extras listed before the path are added without error, they are
    those of the call for the path itself. *)
Theorem unusable_extra_certificate_is_fatal l cfg w p :
  p ∈ extra_ca cfg →
  p ≠ destination_file_of cfg →
  unusable (files w) p →
  (∃ e w',
     generate_certificates_file l cfg w = (Raise e, w')
     ∧ (shutil_copyfile certifi.where_ (destination_file_of cfg)
          (mkWorld (files w)
             (records w ++ start_records l (certificate_directory cfg)
                             certifi.where_ (destination_file_of cfg)))
        = (Raise e, w')
        ∨ ∃ q w0,
            q ∈ extra_ca cfg
            ∧ add_ca_to_certificates_store l q (destination_file_of cfg) w0
              = (Raise e, w')))
  ∧ (∀ before pre post w1,
       certificate_directory before = certificate_directory cfg →
       extra_ca before = pre →
       extra_ca cfg = pre ++ p :: post →
       generate_certificates_file l before w = (Ok None, w1) →
       (files w !! p = None →
          generate_certificates_file l cfg w
          = (Raise (FileNotFoundError p),
             mkWorld (files w1)
               (records w1 ++ entry_records l p (destination_file_of cfg))))
       ∧ (∀ data,
            files w !! p = Some data →
            x509.load_pem_x509_certificate data = None →
            generate_certificates_file l cfg w
            = (Raise ValueError,
               mkWorld (files w1)
                 (records w1 ++ entry_records l p (destination_file_of cfg)))))
  ∧ (∀ w' loc,
       files w' !! p = None →
       add_ca_to_certificates_store l p loc w'
       = (Raise (FileNotFoundError p),
          mkWorld (files w') (records w' ++ entry_records l p loc)))
  ∧ (∀ w' loc data,
       files w' !! p = Some data →
       x509.load_pem_x509_certificate data = None →
       add_ca_to_certificates_store l p loc w'
       = (Raise ValueError,
          mkWorld (files w') (records w' ++ entry_records l p loc))).
Proof.
  intros Hin Hp Hbad. split_and!.
  - rewrite generate_run. cbn zeta.
    unfold shutil_copyfile. cbn [files records].
    destruct (files w !! certifi.where_) as [base|]; [|eauto].
    destruct (decide _) as [Hsame|Hne]; [eauto|].
    set (w1 := mkWorld _ _).
    destruct (for_each_add_ca_unusable l (destination_file_of cfg)
                (extra_ca cfg) w1 p Hin Hp) as [e He].
    { apply (unusable_frame (files w)); [|done].
      subst w1. cbn [files]. by rewrite lookup_insert_ne. }
    destruct (for_each _ _ w1) as [[[]|e'] w'] eqn:Hloop; cbn [fst] in *;
      [discriminate|].
    exists e', w'. split; [done|]. right.
    by apply for_each_raise_inv in Hloop.
  - intros before pre post w1 Hdir Hpre Hextras.
    assert (Hdest : destination_file_of before = destination_file_of cfg).
    { unfold destination_file_of. by rewrite Hdir. }
    rewrite !generate_run. cbn zeta. rewrite Hdest, Hdir, Hpre, Hextras.
    destruct (files w !! certifi.where_) as [base|]; [|done].
    destruct (decide _) as [|Hne]; [done|].
    set (w0 := mkWorld _ _). rewrite for_each_app.
    pose proof (for_each_add_ca_frame l (destination_file_of cfg) pre w0 p Hp)
      as Hframe.
    destruct (for_each pre _ w0) as [[[]|e0] w2]; [|done].
    intros [= <-]. cbn [snd] in Hframe.
    assert (Hsame : files w2 !! p = files w !! p).
    { rewrite Hframe. subst w0. cbn [files]. by rewrite lookup_insert_ne. }
    cbn [for_each]. unfold bind. rewrite add_ca_run. cbn zeta. rewrite Hsame.
    split.
    + by intros ->.
    + intros data -> ->. done.
  - intros w' loc Hnone. rewrite add_ca_run. cbn zeta. by rewrite Hnone.
  - intros w' loc data Hsome Hnone. rewrite add_ca_run. cbn zeta.
    by rewrite Hsome, Hnone.
Qed.

(** C8, as amended.  [generate_certificates_file] returns [None], never
    a path.  The file it writes is the certificate directory joined with
    the fixed file name: a run changes no other file, and after a run
    that returns, that file exists. *)
Theorem generate_certificates_file_returns_none l cfg w :
  ((generate_certificates_file l cfg w).1 = Ok None
   ∨ ∃ e, (generate_certificates_file l cfg w).1 = Raise e)
  ∧ (∀ p, p ≠ os_path_join (certificate_directory cfg)
                 constants.CERTIFICATE_STORAGE_FILENAME →
          files (generate_certificates_file l cfg w).2 !! p = files w !! p)
  ∧ ((generate_certificates_file l cfg w).1 = Ok None →
     is_Some (files (generate_certificates_file l cfg w).2
                !! os_path_join (certificate_directory cfg)
                     constants.CERTIFICATE_STORAGE_FILENAME)).
Proof.
  fold (destination_file_of cfg). rewrite generate_run. cbn zeta.
  destruct (files w !! certifi.where_) as [base|].
  2: { split; [eauto|]. split; [done|]. intros [=]. }
  destruct (decide _) as [Hsame|Hne].
  { split; [eauto|]. split; [done|]. intros [=]. }
  set (w1 := mkWorld _ _).
  pose proof (for_each_add_ca_frame l (destination_file_of cfg)
                (extra_ca cfg) w1) as Hframe.
  pose proof (for_each_add_ca_keeps_store l (destination_file_of cfg)
                (extra_ca cfg) w1) as Hkeep.
  destruct (for_each _ _ w1) as [[[]|e] w']; cbn [fst snd] in *.
  - split; [by left|]. split.
    + intros p Hp. rewrite Hframe by done.
      subst w1. cbn [files]. by rewrite lookup_insert_ne.
    + intros _. apply Hkeep. subst w1. cbn [files].
      rewrite lookup_insert_eq. eauto.
  - split; [eauto|]. split; [|intros [=]].
    intros p Hp. rewrite Hframe by done.
    subst w1. cbn [files]. by rewrite lookup_insert_ne.
Qed.

Lemma generate_certificates_file_merge l cfg base cb extras w :
  build_inputs cfg base cb extras w →
  ∃ recs,
    generate_certificates_file l cfg w
    = (Ok None,
       mkWorld (<[destination_file_of cfg :=
                    base ++ concat ((appended cb extras).*1)]> (files w)) recs)
    ∧ x509.load_pem_x509_certificates (base ++ concat ((appended cb extras).*1))
      = Some (cb ++ (appended cb extras).*2).
Proof.
  intros (Hne & Hbase & Hcb & Hall & Hone).
  rewrite generate_run. cbn zeta.
  rewrite Hbase. destruct (decide _) as [|_]; [done|].
  set (w1 := mkWorld _ _).
  destruct (for_each_add_ca_merge l (destination_file_of cfg)
              (extra_ca cfg) extras w1 base cb) as (recs & Hrun & Hload).
  - subst w1. cbn [files]. by apply extra_file_insert.
  - done.
  - subst w1. cbn [files]. apply lookup_insert_eq.
  - done.
  - exists recs. rewrite Hrun. subst w1. cbn [files].
    by rewrite insert_insert_eq.
Qed.

(** A run leaves the inputs of the next run in place, so building again
    over the result gives the same store. *)
Lemma generate_certificates_file_rerun l cfg base cb extras w :
  build_inputs cfg base cb extras w →
  build_inputs cfg base cb extras (generate_certificates_file l cfg w).2
  ∧ files (generate_certificates_file l cfg
             (generate_certificates_file l cfg w).2).2
    = files (generate_certificates_file l cfg w).2.
Proof.
  intros Hw.
  destruct (generate_certificates_file_merge l cfg base cb extras w Hw)
    as (recs & Hrun & _).
  assert (Hnext : build_inputs cfg base cb extras
                    (generate_certificates_file l cfg w).2).
  { destruct Hw as (Hne & Hbase & Hcb & Hall & Hone).
    rewrite Hrun. cbn [snd]. split_and!; cbn [files]; [done| |done| |done].
    - by rewrite lookup_insert_ne.
    - by apply extra_file_insert. }
  split; [exact Hnext|].
  destruct (generate_certificates_file_merge l cfg base cb extras _ Hnext)
    as (recs' & Hrun' & _).
  rewrite Hrun'. cbn [snd files]. rewrite Hrun. cbn [snd files].
  by rewrite insert_insert_eq.
Qed.

(** C2, as amended.  For extras that add one certificate each (every
    extra file loads as its certificate, and where the run appends a file
    the store then parses as its certificates before followed by that
    one), two runs of the builder on worlds that hold the same base bundle
    and the same extras (whatever else they hold, the old store included)
    both return and leave the same store: the base bundle followed by the
    bytes of the extras that were appended.  The store parses as the base
    certificates followed by the appended ones; these are pairwise
    distinct, none is a base certificate, and every extra certificate is in
    the store, so a duplicate-free bundle gives a duplicate-free store.
    With the same certificate given twice, not in the bundle, exactly one
    copy is appended. *)
Theorem generate_certificates_file_idempotent
    l cfg base cb extras w1 w2 :
  build_inputs cfg base cb extras w1 →
  build_inputs cfg base cb extras w2 →
  let store := base ++ concat ((appended cb extras).*1) in
  let certs := cb ++ (appended cb extras).*2 in
  (generate_certificates_file l cfg w1).1 = Ok None
  ∧ (generate_certificates_file l cfg w2).1 = Ok None
  ∧ files (generate_certificates_file l cfg w1).2 !! destination_file_of cfg
    = Some store
  ∧ files (generate_certificates_file l cfg w2).2 !! destination_file_of cfg
    = Some store
  ∧ x509.load_pem_x509_certificates store = Some certs
  ∧ NoDup ((appended cb extras).*2)
  ∧ (∀ c, c ∈ (appended cb extras).*2 → (c ∉ cb) ∧ c ∈ (extras.*2))
  ∧ (∀ c, c ∈ (extras.*2) → c ∈ certs)
  ∧ (NoDup cb → NoDup certs)
  ∧ (∀ d1 d2 c1,
       extras = [(d1, c1); (d2, c1)] → c1 ∉ cb →
       store = base ++ d1 ∧ certs = cb ++ [c1]).
Proof.
  intros Hw1 Hw2 store certs.
  destruct (generate_certificates_file_merge l cfg base cb extras w1 Hw1)
    as (recs1 & Hrun1 & Hload).
  destruct (generate_certificates_file_merge l cfg base cb extras w2 Hw2)
    as (recs2 & Hrun2 & _).
  rewrite Hrun1, Hrun2. cbn [fst snd files].
  rewrite !lookup_insert_eq.
  split_and!; [done|done|done|done|exact Hload|..].
  - apply appended_NoDup.
  - intros c Hc. by apply appended_fresh in Hc.
  - apply appended_covers.
  - apply appended_keeps_NoDup.
  - intros d1 d2 c1 -> Hout. subst store certs. cbn.
    rewrite decide_False by done.
    rewrite decide_True
      by (apply elem_of_app; right; by apply list_elem_of_singleton).
    cbn. by rewrite (right_id_L [] (++)).
Qed.

End certificate_store.

(** *** The sample installation *)

Lemma parse_lines_app data :
  ∀ line cs more,
    sample.parse_lines line data = Some cs →
    sample.parse_lines line (data ++ more)
    = (cs ++.) <$> sample.parse_lines [] more.
Proof.
  induction data as [|b data IH]; intros line cs more Hp; cbn in *.
  - destruct line; [|done]. injection Hp as <-.
    by destruct (sample.parse_lines [] more).
  - destruct (decide (b = x0a)); [|by apply IH].
    destruct (sample.parse_lines [] data) as [cs'|] eqn:Hcs'; [|done].
    injection Hp as <-. rewrite (IH [] cs' more Hcs').
    by destruct (sample.parse_lines [] more).
Qed.

Lemma parse_lines_pem c :
  ∀ line, x0a ∉ c → sample.parse_lines line (sample.pem c) = Some [line ++ c].
Proof.
  unfold sample.pem.
  induction c as [|b c IH]; intros line Hc; cbn.
  - rewrite decide_True by done. cbn. by rewrite (right_id_L [] (++)).
  - apply not_elem_of_cons in Hc as [Hb Hc].
    rewrite decide_False by done. rewrite IH by done.
    by rewrite <- (assoc_L (++)).
Qed.

(** In the sample armour every certificate file adds its one certificate,
    at every store that parses. *)
Lemma pem_adds_one c store cs :
  x0a ∉ c →
  sample.load_one (sample.pem c) = Some c
  ∧ (sample.load_all store = Some cs →
     sample.load_all (store ++ sample.pem c) = Some (cs ++ [c])).
Proof.
  intros Hc. split.
  - unfold sample.load_one. by rewrite parse_lines_pem.
  - unfold sample.load_all.
    destruct (sample.parse_lines [] store) as [[|c0 cs0]|] eqn:Hs; try done.
    intros [= <-]. rewrite (parse_lines_app _ _ _ _ Hs).
    by rewrite parse_lines_pem.
Qed.

#[local] Existing Instance sample.values.
#[local] Existing Instance sample.certifi_package.
#[local] Existing Instance sample.x509_package.

Lemma sample_not_in_singleton {A} (a b : A) : a ≠ b → a ∉ [b].
Proof. intros Hne Hin. by apply list_elem_of_singleton in Hin. Qed.

Lemma sample_build_inputs_twice :
  build_inputs
    (sample.ols ["/etc/extra/b.pem"; "/etc/extra/b.pem"] None 20 1)
    sample.bundle [sample.cert_a]
    [(sample.pem sample.cert_b, sample.cert_b);
     (sample.pem sample.cert_b, sample.cert_b)]
    sample.w0
  ∧ build_inputs
    (sample.ols ["/etc/extra/b.pem"; "/etc/extra/b.pem"] None 20 1)
    sample.bundle [sample.cert_a]
    [(sample.pem sample.cert_b, sample.cert_b);
     (sample.pem sample.cert_b, sample.cert_b)]
    sample.w1.
Proof.
  assert (Hone : adds_one_each sample.bundle [sample.cert_a]
                   [(sample.pem sample.cert_b, sample.cert_b);
                    (sample.pem sample.cert_b, sample.cert_b)]).
  { cbn [adds_one_each].
    rewrite decide_False by (intros [=]%list_elem_of_singleton).
    rewrite decide_True
      by (apply elem_of_app; right; by apply list_elem_of_singleton).
    split; [by vm_compute|done]. }
  split; (split; [discriminate|]); (split; [by vm_compute|]);
    (split; [by vm_compute|]); (split; [|exact Hone]);
    repeat (apply Forall2_cons; split;
            [split; [discriminate|]; split; by vm_compute|]);
    apply Forall2_nil_2.
Qed.

Lemma generate_certificates_file_idempotent_witness :
  files (generate_certificates_file logger
           (sample.ols ["/etc/extra/b.pem"; "/etc/extra/b.pem"] None 20 1)
           sample.w0).2 !! sample.dest
  = Some (sample.bundle ++ sample.pem sample.cert_b)
  ∧ files (generate_certificates_file logger
             (sample.ols ["/etc/extra/b.pem"; "/etc/extra/b.pem"] None 20 1)
             sample.w1).2 !! sample.dest
    = Some (sample.bundle ++ sample.pem sample.cert_b).
Proof.
  destruct sample_build_inputs_twice as [Hw0 Hw1].
  destruct (generate_certificates_file_idempotent logger _ _ _ _ _ _ Hw0 Hw1)
    as (_ & _ & Hs0 & Hs1 & _).
  split; [exact Hs0|exact Hs1].
Defined.

Lemma add_ca_skips_duplicate_or_appends_witness :
  (sample.cert_b ∉ [sample.cert_c]) ∧
  add_ca_to_certificates_store logger "/etc/extra/b.pem" sample.dest sample.w1
  = (Ok tt,
     mkWorld
       (<[sample.dest := sample.pem sample.cert_c ++ sample.pem sample.cert_b]>
          (files sample.w1))
       (records sample.w1
          ++ entry_records logger "/etc/extra/b.pem" sample.dest
          ++ [written_record logger (sample.pem sample.cert_b)])).
Proof.
  assert (Hout : sample.cert_b ∉ [sample.cert_c]).
  { apply sample_not_in_singleton. discriminate. }
  split; [exact Hout|].
  apply (add_ca_skips_duplicate_or_appends logger "/etc/extra/b.pem" sample.dest
           sample.w1 (sample.pem sample.cert_b) sample.cert_b
           (sample.pem sample.cert_c) [sample.cert_c]);
    [vm_compute; reflexivity..|exact Hout].
Defined.

Lemma unusable_extra_certificate_is_fatal_witness :
  unusable (files sample.w0) "/etc/extra/broken.pem"
  ∧ generate_certificates_file logger
      (sample.ols ["/etc/extra/b.pem"; "/etc/extra/broken.pem"; "/etc/extra/c.pem"]
         None 20 1)
      sample.w0
    = (Raise ValueError,
       mkWorld
         (files (generate_certificates_file logger
                   (sample.ols ["/etc/extra/b.pem"] None 20 1) sample.w0).2)
         (records (generate_certificates_file logger
                     (sample.ols ["/etc/extra/b.pem"] None 20 1) sample.w0).2
            ++ entry_records logger "/etc/extra/broken.pem" sample.dest)).
Proof.
  assert (Hbad : unusable (files sample.w0) "/etc/extra/broken.pem").
  { right. exists [x42]. split; vm_compute; reflexivity. }
  split; [exact Hbad|].
  destruct (unusable_extra_certificate_is_fatal logger
              (sample.ols
                 ["/etc/extra/b.pem"; "/etc/extra/broken.pem"; "/etc/extra/c.pem"]
                 None 20 1)
              sample.w0 "/etc/extra/broken.pem") as (_ & Hfirst & _ & _).
  - apply elem_of_cons. right. apply elem_of_cons. by left.
  - discriminate.
  - exact Hbad.
  - assert (Hbefore :
              generate_certificates_file logger
                (sample.ols ["/etc/extra/b.pem"] None 20 1) sample.w0
              = (Ok None,
                 (generate_certificates_file logger
                    (sample.ols ["/etc/extra/b.pem"] None 20 1) sample.w0).2))
      by (vm_compute; reflexivity).
    destruct (Hfirst (sample.ols ["/etc/extra/b.pem"] None 20 1)
                ["/etc/extra/b.pem"] ["/etc/extra/c.pem"] _
                eq_refl eq_refl eq_refl Hbefore) as [_ Hparse].
    apply (Hparse [x42]); vm_compute; reflexivity.
Defined.

(** C2, as stated, fails: the bundle holds the certificate A and the one
    extra file holds B followed by A.  The file loads as B, which is new,
    so the whole file is appended, and A, present from the bundle, is in
    the store twice. *)
Lemma generate_certificates_file_chain_counterexample :
  sample.load_all sample.bundle = Some [sample.cert_a]
  ∧ sample.load_all (sample.pem sample.cert_b ++ sample.pem sample.cert_a)
    = Some [sample.cert_b; sample.cert_a]
  ∧ (generate_certificates_file logger
       (sample.ols ["/etc/extra/chain.pem"] None 20 1)
       (mkWorld
          (<["/etc/extra/chain.pem" :=
               sample.pem sample.cert_b ++ sample.pem sample.cert_a]> sample.disk)
          [])).1 = Ok None
  ∧ files (generate_certificates_file logger
             (sample.ols ["/etc/extra/chain.pem"] None 20 1)
             (mkWorld
                (<["/etc/extra/chain.pem" :=
                     sample.pem sample.cert_b ++ sample.pem sample.cert_a]>
                   sample.disk)
                [])).2 !! sample.dest
    = Some (sample.bundle ++ sample.pem sample.cert_b ++ sample.pem sample.cert_a)
  ∧ sample.load_all
      (sample.bundle ++ sample.pem sample.cert_b ++ sample.pem sample.cert_a)
    = Some [sample.cert_a; sample.cert_b; sample.cert_a]
  ∧ ¬ NoDup [sample.cert_a; sample.cert_b; sample.cert_a].
Proof.
  split_and!; [by vm_compute..|].
  intros [Hnotin _]%NoDup_cons. apply Hnotin.
  apply elem_of_cons. right. by apply list_elem_of_singleton.
Qed.

(** C6, as stated, fails: a file that does not parse, and a missing file,
    abort the build with [ValueError] and [FileNotFoundError]; neither is
    a [CertificateLoadError], and the former names no path. *)
Lemma unusable_extra_certificate_counterexample :
  unusable (files sample.w0) "/etc/extra/broken.pem"
  ∧ (generate_certificates_file logger
       (sample.ols ["/etc/extra/broken.pem"] None 20 1) sample.w0).1
    = Raise ValueError
  ∧ (generate_certificates_file logger
       (sample.ols ["/etc/extra/missing.pem"] None 20 1) sample.w0).1
    = Raise (FileNotFoundError "/etc/extra/missing.pem")
  ∧ ¬ (∃ e,
         (generate_certificates_file logger
            (sample.ols ["/etc/extra/broken.pem"] None 20 1) sample.w0).1
         = Raise e
         ∧ exn_class e = "CertificateLoadError"
         ∧ exn_filename e = Some "/etc/extra/broken.pem").
Proof.
  split; [right; exists [x42]; split; vm_compute; reflexivity|].
  split; [vm_compute; reflexivity|].
  split; [vm_compute; reflexivity|].
  intros (e & He & Hclass & _). vm_compute in He.
  injection He as <-. discriminate Hclass.
Qed.

(** C8, as stated, fails: a run that writes the store returns [None], not
    the path of the store. *)
Lemma generate_certificates_file_returns_path_counterexample :
  (generate_certificates_file logger
     (sample.ols ["/etc/extra/b.pem"] None 20 1) sample.w0).1 = Ok None
  ∧ files (generate_certificates_file logger
             (sample.ols ["/etc/extra/b.pem"] None 20 1) sample.w0).2
      !! "/tmp/trust/ols.pem"
    = Some (sample.bundle ++ sample.pem sample.cert_b)
  ∧ (generate_certificates_file logger
       (sample.ols ["/etc/extra/b.pem"] None 20 1) sample.w0).1
    ≠ Ok (Some (os_path_join "/tmp/trust" constants.CERTIFICATE_STORAGE_FILENAME)).
Proof.
  split; [vm_compute; reflexivity|].
  split; [vm_compute; reflexivity|].
  vm_compute. discriminate.
Qed.

(** ** The TLS profile and the server launch *)

Section server_launch.
Context `{!constants.Values, !tls.Package}.
Implicit Types (w : world) (config : config_model.AppConfig).

Import config_model.

Lemma start_uvicorn_run config w :
  start_uvicorn config w =
  let sec_profile := tls_security_profile (ols_config config) in
  match get_ssl_version sec_profile w with
  | (Raise e, w1) => (Raise e, w1)
  | (Ok ssl_version, w1) =>
      match get_ciphers sec_profile w1 with
      | (Raise e, w2) => (Raise e, w2)
      | (Ok ssl_ciphers, w2) =>
          (Ok {| uvicorn.app := "ols.app.main:app";
                 uvicorn.host :=
                   if run_on_localhost (dev_config config)
                   then "localhost" else "0.0.0.0";
                 uvicorn.port :=
                   if disable_tls (dev_config config) then 8080 else 8443;
                 uvicorn.workers := max_workers (ols_config config);
                 uvicorn.log_level :=
                   uvicorn_log_level (logging_config (ols_config config));
                 uvicorn.ssl_keyfile := tls_key_path (tls_config (ols_config config));
                 uvicorn.ssl_certfile :=
                   tls_certificate_path (tls_config (ols_config config));
                 uvicorn.ssl_keyfile_password :=
                   tls_key_password (tls_config (ols_config config));
                 uvicorn.ssl_version := ssl_version;
                 uvicorn.ssl_ciphers := ssl_ciphers;
                 uvicorn.access_log :=
                   bool_decide
                     (uvicorn_log_level (logging_config (ols_config config))
                      < logging.INFO) |},
           w2)
      end
  end.
Proof.
  unfold start_uvicorn, bind, ret. cbn zeta.
  destruct (get_ssl_version _ w) as [[v|e] w1]; [|reflexivity].
  destruct (get_ciphers _ w1) as [[c|e] w2]; reflexivity.
Qed.

(** A launch that happened: both resolutions returned, and the
    arguments are the record of [start_uvicorn_run]. *)
Ltac launched :=
  rewrite start_uvicorn_run; cbn zeta;
  destruct (get_ssl_version _ _) as [[?v|?e] ?w]; [|discriminate];
  destruct (get_ciphers _ _) as [[?c|?e] ?w]; [|discriminate];
  intros [= <- <-]; cbn.

(** The worker count of the launch is the configured one. *)
Lemma start_uvicorn_workers config w a w' :
  start_uvicorn config w = (Ok a, w') →
  uvicorn.workers a = max_workers (ols_config config).
Proof.
  launched. reflexivity.
Qed.

(** C5.  With no security profile, or with a profile whose type is not
    set, [get_ssl_version] returns [DEFAULT_SSL_VERSION] and
    [get_ciphers] returns [DEFAULT_SSL_CIPHERS]; both return (nothing is
    raised), having logged one INFO record and touched no file. *)
Theorem default_resolution sec_profile w :
  (sec_profile = None
   ∨ ∃ profile, sec_profile = Some profile ∧ profile_type profile = None) →
  get_ssl_version sec_profile w
  = (Ok constants.DEFAULT_SSL_VERSION,
     mkWorld (files w)
       (records w ++
          [logging.mkLogRecord "ols" logging.INFO "Using default SSL version: %s"
             [logging.AInt constants.DEFAULT_SSL_VERSION]]))
  ∧ get_ciphers sec_profile w
    = (Ok constants.DEFAULT_SSL_CIPHERS,
       mkWorld (files w)
         (records w ++
            [logging.mkLogRecord "ols" logging.INFO "Allowing default ciphers: %s"
               [logging.AStr constants.DEFAULT_SSL_CIPHERS]])).
Proof.
  intros [->|([ty ver cs] & -> & Hty)]; [done|].
  cbn in Hty. subst ty. done.
Qed.

(** [get_ciphers] does not read the minimum TLS version of the profile. *)
Lemma get_ciphers_ignores_min_tls_version ty ver ver' cs w :
  get_ciphers
    (Some {| profile_type := ty; min_tls_version := ver; ciphers := cs |}) w
  = get_ciphers
      (Some {| profile_type := ty; min_tls_version := ver'; ciphers := cs |}) w.
Proof. reflexivity. Qed.

(** C7, as amended.  The two flags act separately: the host is
    [localhost] exactly when [run_on_localhost] is set and [0.0.0.0]
    otherwise; the port is 8080 exactly when [disable_tls] is set and
    8443 otherwise.  With both flags set the server binds to localhost
    on 8080, with neither to 0.0.0.0 on 8443. *)
Theorem start_uvicorn_host_and_port config w a w' :
  start_uvicorn config w = (Ok a, w') →
  uvicorn.host a
  = (if run_on_localhost (dev_config config) then "localhost" else "0.0.0.0")
  ∧ uvicorn.port a = (if disable_tls (dev_config config) then 8080 else 8443).
Proof.
  launched. by split.
Qed.

(** C9.  Two configurations that differ only in [disable_tls] either
    both fail in the profile resolution, with the same exception, or both
    launch, with the same five TLS arguments and the same remaining
    arguments except the port, which is 8080 where the flag is set and
    8443 where it is not. *)
Theorem tls_arguments_ignore_disable_tls config1 config2 w :
  ols_config config1 = ols_config config2 →
  run_on_localhost (dev_config config1) = run_on_localhost (dev_config config2) →
  disable_tls (dev_config config1) = true →
  disable_tls (dev_config config2) = false →
  match start_uvicorn config1 w, start_uvicorn config2 w with
  | (Ok a1, w1), (Ok a2, w2) =>
      w1 = w2
      ∧ uvicorn.ssl_keyfile a1 = uvicorn.ssl_keyfile a2
      ∧ uvicorn.ssl_certfile a1 = uvicorn.ssl_certfile a2
      ∧ uvicorn.ssl_keyfile_password a1 = uvicorn.ssl_keyfile_password a2
      ∧ uvicorn.ssl_version a1 = uvicorn.ssl_version a2
      ∧ uvicorn.ssl_ciphers a1 = uvicorn.ssl_ciphers a2
      ∧ uvicorn.app a1 = uvicorn.app a2
      ∧ uvicorn.host a1 = uvicorn.host a2
      ∧ uvicorn.workers a1 = uvicorn.workers a2
      ∧ uvicorn.log_level a1 = uvicorn.log_level a2
      ∧ uvicorn.access_log a1 = uvicorn.access_log a2
      ∧ uvicorn.port a1 = 8080
      ∧ uvicorn.port a2 = 8443
  | (Raise e1, w1), (Raise e2, w2) => e1 = e2 ∧ w1 = w2
  | _, _ => False
  end.
Proof.
  intros Hols Hhost Hon Hoff.
  rewrite !start_uvicorn_run. cbn zeta.
  rewrite Hols, Hhost, Hon, Hoff.
  destruct (get_ssl_version _ w) as [[v|e] w1]; [|done].
  destruct (get_ciphers _ w1) as [[c|e] w2]; [|done].
  cbn. by split_and!.
Qed.

(** C10.  The launch passes [access_log = (log_level < logging.INFO)],
    with [log_level] the configured uvicorn log level: the access log is
    on exactly when that level is strictly below 20. *)
Theorem access_log_iff_below_info config w a w' :
  start_uvicorn config w = (Ok a, w') →
  uvicorn.log_level a = uvicorn_log_level (logging_config (ols_config config))
  ∧ uvicorn.access_log a = bool_decide (uvicorn.log_level a < logging.INFO)
  ∧ (uvicorn.access_log a = true
     ↔ uvicorn_log_level (logging_config (ols_config config)) < 20).
Proof.
  launched. split; [done|]. split; [done|]. apply bool_decide_eq_true.
Qed.

End server_launch.

(** *** Profiles that do not resolve *)

Section unresolvable_profile.
Context `{!constants.Values}.
Variable table : tls_spec.PolicyTable.
Implicit Types (w : world).

Import config_model.

(** C4, as amended.  A profile whose type is set to a name the policy
    table does not know makes both [get_ssl_version] and [get_ciphers]
    raise [ConfigurationError]; no default is returned.  A profile of a
    known type whose minimum version (explicit, else the profile's
    default) is not a protocol version makes [get_ssl_version] raise
    [ConfigurationError]; [get_ciphers] is not given the minimum version
    and returns what it returns for any other one. *)
Theorem unresolvable_profile_fails profile name w :
  let resolve_version := @get_ssl_version _ (tls_spec.package table) in
  let resolve_ciphers := @get_ciphers _ (tls_spec.package table) in
  profile_type profile = Some name →
  (tls_spec.profiles table !! name = None →
     (resolve_version (Some profile) w).1 = Raise ConfigurationError
     ∧ (resolve_ciphers (Some profile) w).1 = Raise ConfigurationError)
  ∧ (∀ policy,
       tls_spec.profiles table !! name = Some policy →
       tls_spec.protocol_versions table
         !! default (tls_spec.default_min_tls_version policy)
              (min_tls_version profile) = None →
       (resolve_version (Some profile) w).1 = Raise ConfigurationError)
  ∧ (∀ version,
       resolve_ciphers
         (Some {| profile_type := profile_type profile;
                  min_tls_version := version;
                  ciphers := ciphers profile |}) w
       = resolve_ciphers (Some profile) w).
Proof.
  destruct profile as [ty ver cs]. cbn. intros ->. split_and!.
  - intros Hnone.
    unfold get_ssl_version, get_ciphers, bind, lift. cbn.
    unfold tls_spec.min_tls_version, tls_spec.ciphers_as_string.
    by rewrite Hnone.
  - intros policy Hsome Hver.
    unfold get_ssl_version, bind, lift, info, emit. cbn.
    unfold tls_spec.min_tls_version, tls_spec.ssl_tls_version.
    rewrite Hsome. cbn. by rewrite Hver.
  - reflexivity.
Qed.

End unresolvable_profile.

#[local] Existing Instance sample.tls_package.

Lemma default_resolution_witness :
  get_ssl_version (Some (sample.profile None (Some "VersionTLS13") None)) sample.w0
  = (Ok 17,
     mkWorld (files sample.w0)
       [logging.mkLogRecord "ols" logging.INFO "Using default SSL version: %s"
          [logging.AInt 17]])
  ∧ get_ciphers (Some (sample.profile None (Some "VersionTLS13") None)) sample.w0
    = (Ok "TLSv1",
       mkWorld (files sample.w0)
         [logging.mkLogRecord "ols" logging.INFO "Allowing default ciphers: %s"
            [logging.AStr "TLSv1"]]).
Proof.
  assert (Hunset :
            Some (sample.profile None (Some "VersionTLS13") None) = None
            ∨ ∃ profile,
                Some (sample.profile None (Some "VersionTLS13") None) = Some profile
                ∧ config_model.profile_type profile = None).
  { right. exists (sample.profile None (Some "VersionTLS13") None).
    split; reflexivity. }
  exact (default_resolution
           (Some (sample.profile None (Some "VersionTLS13") None)) sample.w0
           Hunset).
Defined.

Lemma unresolvable_profile_fails_witness :
  (get_ssl_version
     (Some (sample.profile (Some "ultramodern") (Some "VersionTLS13") None))
     sample.w0).1 = Raise ConfigurationError
  ∧ (get_ciphers
       (Some (sample.profile (Some "ultramodern") (Some "VersionTLS13") None))
       sample.w0).1 = Raise ConfigurationError.
Proof.
  destruct (unresolvable_profile_fails sample.table
              (sample.profile (Some "ultramodern") (Some "VersionTLS13") None)
              "ultramodern" sample.w0 eq_refl) as [Hboth _].
  apply Hboth. vm_compute. reflexivity.
Defined.

(** C4, as stated, fails: in a custom profile with the cipher list A, B
    the minimum version [bogus] is not a protocol version, and
    [get_ssl_version] raises, yet [get_ciphers] returns the cipher string. *)
Lemma unresolvable_profile_counterexample :
  tls_spec.protocol_versions sample.table !! "bogus" = None
  ∧ (get_ssl_version
       (Some (sample.profile (Some "custom") (Some "bogus") (Some ["A"; "B"])))
       sample.w0).1 = Raise ConfigurationError
  ∧ (get_ciphers
       (Some (sample.profile (Some "custom") (Some "bogus") (Some ["A"; "B"])))
       sample.w0).1 = Ok "A:B"
  ∧ (get_ciphers
       (Some (sample.profile (Some "custom") (Some "bogus") (Some ["A"; "B"])))
       sample.w0).1 ≠ Raise ConfigurationError.
Proof.
  split_and!; [vm_compute; reflexivity..|].
  vm_compute. discriminate.
Qed.

Lemma start_uvicorn_host_and_port_witness :
  ∃ a w',
    start_uvicorn (sample.app_config true true None 20 1) sample.w0 = (Ok a, w')
    ∧ uvicorn.host a = "localhost" ∧ uvicorn.port a = 8080.
Proof.
  eexists _, _. split; [vm_compute; reflexivity|].
  apply (start_uvicorn_host_and_port
           (sample.app_config true true None 20 1) sample.w0 _ _ eq_refl).
Defined.

(** C7, as stated, fails: with [run_on_localhost] set and [disable_tls]
    not set the flags are not both set, yet the host is not 0.0.0.0; with
    [disable_tls] set alone the port is not 8443. *)
Lemma start_uvicorn_mixed_flags_counterexample :
  (∃ a w',
     start_uvicorn (sample.app_config true false None 20 1) sample.w0 = (Ok a, w')
     ∧ uvicorn.host a = "localhost" ∧ uvicorn.port a = 8443
     ∧ uvicorn.host a ≠ "0.0.0.0")
  ∧ (∃ a w',
       start_uvicorn (sample.app_config false true None 20 1) sample.w0 = (Ok a, w')
       ∧ uvicorn.host a = "0.0.0.0" ∧ uvicorn.port a = 8080
       ∧ uvicorn.port a ≠ 8443).
Proof.
  split; eexists _, _; (split; [vm_compute; reflexivity|]);
    cbn; split_and!; done.
Qed.

Lemma tls_arguments_ignore_disable_tls_witness :
  match
    start_uvicorn
      (sample.app_config false true
         (Some (sample.profile (Some "modern") None None)) 20 1) sample.w0,
    start_uvicorn
      (sample.app_config false false
         (Some (sample.profile (Some "modern") None None)) 20 1) sample.w0
  with
  | (Ok a1, _), (Ok a2, _) =>
      uvicorn.ssl_version a1 = 772 ∧ uvicorn.ssl_version a2 = 772
      ∧ uvicorn.ssl_ciphers a1 = uvicorn.ssl_ciphers a2
      ∧ uvicorn.port a1 = 8080 ∧ uvicorn.port a2 = 8443
  | _, _ => False
  end.
Proof.
  pose proof (tls_arguments_ignore_disable_tls
                (sample.app_config false true
                   (Some (sample.profile (Some "modern") None None)) 20 1)
                (sample.app_config false false
                   (Some (sample.profile (Some "modern") None None)) 20 1)
                sample.w0 eq_refl eq_refl eq_refl eq_refl) as Hsame.
  vm_compute in Hsame. vm_compute.
  destruct Hsame as (_ & _ & _ & _ & _ & Hc & _ & _ & _ & _ & _ & Hp1 & Hp2).
  split_and!; [reflexivity|reflexivity|exact Hc|exact Hp1|exact Hp2].
Defined.

Lemma access_log_iff_below_info_witness :
  ∃ a w',
    start_uvicorn (sample.app_config false false None 10 1) sample.w0 = (Ok a, w')
    ∧ uvicorn.access_log a = true.
Proof.
  eexists _, _. split; [vm_compute; reflexivity|].
  apply (access_log_iff_below_info
           (sample.app_config false false None 10 1) sample.w0 _ _ eq_refl).
  vm_compute. reflexivity.
Defined.

(** C1 fails on the code: with [max_workers] configured as 4 the launch
    asks for four workers. *)
Theorem start_uvicorn_four_workers :
  ∃ a w',
    start_uvicorn (sample.app_config false false None 20 4) sample.w0 = (Ok a, w')
    ∧ uvicorn.workers a = 4
    ∧ uvicorn.workers a ≠ 1.
Proof.
  eexists _, _. split; [vm_compute; reflexivity|]. cbn. by split.
Qed.

(** ** More on the certificate store *)

Section certificate_store_more.
Context `{!constants.Values, !certifi.Package, !x509.Package}.
Implicit Types (w : world) (l : logging.Logger) (p : path).
Implicit Types (cs : list Certificate).

Import config_model.

(** A call extends the store, if there is one. *)
Lemma add_ca_grows_store l cert_path cert_location w store :
  files w !! cert_location = Some store →
  ∃ tail,
    files (add_ca_to_certificates_store l cert_path cert_location w).2
      !! cert_location = Some (store ++ tail).
Proof.
  intros Hstore. rewrite add_ca_run. cbn zeta. rewrite Hstore.
  repeat case_match; cbn [snd files];
    try (exists []; by rewrite (right_id_L [] (++))).
  eexists. by rewrite lookup_insert_eq.
Qed.

(** X1.  Whatever its outcome, a call of [add_ca_to_certificates_store]
    changes no file but the store, keeps the old store as a prefix of the
    new one, does not create a store that was missing, and only adds log
    records. *)
Theorem add_ca_only_appends l cert_path cert_location w :
  (∀ p, p ≠ cert_location →
        files (add_ca_to_certificates_store l cert_path cert_location w).2 !! p
        = files w !! p)
  ∧ (∀ store,
       files w !! cert_location = Some store →
       ∃ tail,
         files (add_ca_to_certificates_store l cert_path cert_location w).2
           !! cert_location = Some (store ++ tail))
  ∧ (files w !! cert_location = None →
     files (add_ca_to_certificates_store l cert_path cert_location w).2
       !! cert_location = None)
  ∧ records w `prefix_of`
      records (add_ca_to_certificates_store l cert_path cert_location w).2.
Proof.
  split_and!.
  - intros p Hp. by apply add_ca_frame.
  - intros store Hstore. by apply add_ca_grows_store.
  - intros Hnone. rewrite add_ca_run. cbn zeta. rewrite Hnone.
    repeat case_match; cbn [snd files]; done.
  - rewrite add_ca_run. cbn zeta.
    repeat case_match; cbn [snd records]; by apply prefix_app_r.
Qed.

(** The same for the whole loop over the extras. *)
Lemma for_each_add_ca_only_appends l dest ps :
  ∀ w store,
    files w !! dest = Some store →
    ∃ tail,
      files (for_each ps (λ q, add_ca_to_certificates_store l q dest) w).2 !! dest
      = Some (store ++ tail).
Proof.
  induction ps as [|q ps IH]; intros w store Hstore.
  - exists []. by rewrite (right_id_L [] (++)).
  - cbn [for_each]. unfold bind.
    destruct (add_ca_grows_store l q dest w store Hstore) as [tail Htail].
    destruct (add_ca_to_certificates_store l q dest w) as [[[]|e] w'];
      cbn [snd] in *; [|eauto].
    destruct (IH w' _ Htail) as [tail' Htail'].
    exists (tail ++ tail'). by rewrite (assoc_L (++)).
Qed.

Lemma add_ca_skips_duplicate_or_appends_cases
    l cert_path cert_location w data c store cs :
  files w !! cert_path = Some data →
  x509.load_pem_x509_certificate data = Some c →
  files w !! cert_location = Some store →
  x509.load_pem_x509_certificates store = Some cs →
  (c ∈ cs
   ∧ add_ca_to_certificates_store l cert_path cert_location w
     = (Ok tt,
        mkWorld (files w)
          (records w ++ entry_records l cert_path cert_location
             ++ [duplicate_record l cert_path])))
  ∨ ((c ∉ cs)
     ∧ add_ca_to_certificates_store l cert_path cert_location w
       = (Ok tt,
          mkWorld (<[cert_location := store ++ data]> (files w))
            (records w ++ entry_records l cert_path cert_location
               ++ [written_record l data]))).
Proof.
  intros Hdata Hc Hstore Hcs. rewrite add_ca_run. cbn zeta.
  rewrite Hdata, Hc, Hstore, Hcs.
  destruct (decide (c ∈ cs)); [left|right]; done.
Qed.

(** X2.  Adding the same certificate file a second time is a no-op.
    After a first call, which returns, a second call for the same path
    logs the WARNING record and leaves every file as the first call left
    it.  What is asked of the loader concerns the one store at hand: if
    the first call appends, the store that results parses and its
    certificates include the one of the file. *)
Theorem add_ca_twice_is_once l p cert_location w data c store cs cs' :
  p ≠ cert_location →
  files w !! p = Some data →
  x509.load_pem_x509_certificate data = Some c →
  files w !! cert_location = Some store →
  x509.load_pem_x509_certificates store = Some cs →
  (c ∉ cs →
   x509.load_pem_x509_certificates (store ++ data) = Some cs' ∧ c ∈ cs') →
  (add_ca_to_certificates_store l p cert_location w).1 = Ok tt
  ∧ add_ca_to_certificates_store l p cert_location
      (add_ca_to_certificates_store l p cert_location w).2
    = (Ok tt,
       mkWorld (files (add_ca_to_certificates_store l p cert_location w).2)
         (records (add_ca_to_certificates_store l p cert_location w).2
            ++ entry_records l p cert_location ++ [duplicate_record l p])).
Proof.
  intros Hp Hdata Hone Hstore Hcs Hadd.
  destruct (add_ca_skips_duplicate_or_appends_cases l p cert_location w
              data c store cs Hdata Hone Hstore Hcs) as [[Hin Hrun]|[Hout Hrun]];
    rewrite Hrun; cbn [fst snd files records]; (split; [done|]).
  - rewrite add_ca_run. cbn zeta. cbn [files records].
    rewrite Hdata, Hone, Hstore, Hcs. by rewrite decide_True.
  - destruct (Hadd Hout) as [Hload Hin].
    rewrite add_ca_run. cbn zeta. cbn [files records].
    rewrite lookup_insert_ne by done. rewrite Hdata, Hone.
    rewrite lookup_insert_eq. rewrite Hload. by rewrite decide_True.
Qed.

(** X3.  A certificate that loads is still not added when the store is
    missing or does not parse: the call raises [FileNotFoundError] naming
    the store, respectively [ValueError], and writes nothing; mode "ab"
    never gets to create the store. *)
Theorem add_ca_needs_a_loadable_store l cert_path cert_location w data c :
  files w !! cert_path = Some data →
  x509.load_pem_x509_certificate data = Some c →
  (files w !! cert_location = None →
     add_ca_to_certificates_store l cert_path cert_location w
     = (Raise (FileNotFoundError cert_location),
        mkWorld (files w)
          (records w ++ entry_records l cert_path cert_location)))
  ∧ (∀ store,
       files w !! cert_location = Some store →
       x509.load_pem_x509_certificates store = None →
       add_ca_to_certificates_store l cert_path cert_location w
       = (Raise ValueError,
          mkWorld (files w)
            (records w ++ entry_records l cert_path cert_location))).
Proof.
  intros Hdata Hc. split.
  - intros Hnone. rewrite add_ca_run. cbn zeta. by rewrite Hdata, Hc, Hnone.
  - intros store Hstore Hbad. rewrite add_ca_run. cbn zeta.
    by rewrite Hdata, Hc, Hstore, Hbad.
Qed.

(** X4.  Only the first certificate of an extra file is compared with the
    store, and the whole file is appended.  So a file whose first
    certificate is new and which also carries a certificate [d] of the
    store is appended, and the store that results holds [d] twice. *)
Theorem add_ca_chain_file_duplicates
    l cert_path cert_location w data c store cs ds d :
  files w !! cert_path = Some data →
  x509.load_pem_x509_certificate data = Some c →
  files w !! cert_location = Some store →
  x509.load_pem_x509_certificates store = Some cs →
  c ∉ cs →
  x509.load_pem_x509_certificates (store ++ data) = Some (cs ++ ds) →
  d ∈ ds → d ∈ cs →
  (add_ca_to_certificates_store l cert_path cert_location w).1 = Ok tt
  ∧ files (add_ca_to_certificates_store l cert_path cert_location w).2
      !! cert_location = Some (store ++ data)
  ∧ ¬ NoDup (cs ++ ds).
Proof.
  intros Hdata Hc Hstore Hcs Hout Hall Hd Hd'.
  destruct (add_ca_skips_duplicate_or_appends_cases l cert_path cert_location w
              data c store cs Hdata Hc Hstore Hcs) as [[Hin _]|[_ Hrun]]; [done|].
  rewrite Hrun. cbn [fst snd files]. split; [done|].
  split; [apply lookup_insert_eq|].
  intros (_ & Hdisjoint & _)%NoDup_app. by apply (Hdisjoint d).
Qed.

(** X5.  The builder overwrites: two worlds that differ only in the old
    contents of the destination file (or in its absence) give the same
    outcome and the same world, provided the bundle is there and is not
    the destination itself.  No assumption on the loaders is needed. *)
Theorem generate_overwrites_old_store l cfg w w' :
  certifi.where_ ≠ destination_file_of cfg →
  is_Some (files w !! certifi.where_) →
  (∀ p, p ≠ destination_file_of cfg → files w !! p = files w' !! p) →
  records w = records w' →
  generate_certificates_file l cfg w = generate_certificates_file l cfg w'.
Proof.
  intros Hne [base Hbase] Hsame Hrecs.
  rewrite !generate_run. cbn zeta.
  destruct (decide _) as [|_]; [done|].
  rewrite <- (Hsame certifi.where_ Hne), Hbase, <- Hrecs.
  assert (Heq : <[destination_file_of cfg := base]> (files w)
                = <[destination_file_of cfg := base]> (files w')).
  { apply map_eq. intros p.
    destruct (decide (p = destination_file_of cfg)) as [->|Hp].
    - by rewrite !lookup_insert_eq.
    - rewrite !lookup_insert_ne by done. by apply Hsame. }
  by rewrite Heq.
Qed.

(** X6.  Extra paths are processed in order and a failure is final.  For
    a configuration that lists further paths after those of [cfg]: where
    the build of [cfg] raises, the longer build raises the same exception
    and ends in the same world, the further paths unread; where the build
    of [cfg] returns, the longer build goes on from its world with the
    further paths. *)
Theorem generate_extends l cfg cfg' more w :
  certificate_directory cfg' = certificate_directory cfg →
  extra_ca cfg' = extra_ca cfg ++ more →
  match generate_certificates_file l cfg w with
  | (Raise e, w1) => generate_certificates_file l cfg' w = (Raise e, w1)
  | (Ok _, w1) =>
      generate_certificates_file l cfg' w
      = match for_each more
                (λ q, add_ca_to_certificates_store l q (destination_file_of cfg)) w1
        with
        | (Ok _, w2) => (Ok None, w2)
        | (Raise e, w2) => (Raise e, w2)
        end
  end.
Proof.
  intros Hdir Hextras.
  assert (Hdest : destination_file_of cfg' = destination_file_of cfg).
  { unfold destination_file_of. by rewrite Hdir. }
  rewrite !generate_run. cbn zeta. rewrite Hdest, Hdir, Hextras.
  destruct (files w !! certifi.where_) as [base|]; [|done].
  destruct (decide _); [done|].
  rewrite for_each_app.
  destruct (for_each (extra_ca cfg) _ _) as [[[]|e] w1]; done.
Qed.

(** X7.  Once the bundle has been copied, the destination file begins
    with the bundle, whether the run returns or raises: extras are only
    ever appended, and a run that fails on an extra leaves the store it
    has built so far on disk. *)
Theorem generate_keeps_the_bundle l cfg w base :
  certifi.where_ ≠ destination_file_of cfg →
  files w !! certifi.where_ = Some base →
  ∃ tail,
    files (generate_certificates_file l cfg w).2 !! destination_file_of cfg
    = Some (base ++ tail).
Proof.
  intros Hne Hbase. rewrite generate_run. cbn zeta.
  rewrite Hbase. destruct (decide _) as [|_]; [done|].
  set (w1 := mkWorld _ _).
  destruct (for_each_add_ca_only_appends l (destination_file_of cfg)
              (extra_ca cfg) w1 base) as [tail Htail].
  { subst w1. cbn [files]. apply lookup_insert_eq. }
  exists tail.
  destruct (for_each _ _ w1) as [[[]|e] w']; exact Htail.
Qed.

(** X8.  The bundle is parsed only when there is an extra to compare with
    it.  With a bundle that does not parse: a configuration without extras
    builds, the store being the bundle as it is; a configuration whose
    first extra loads fails with [ValueError], the copied bundle left in
    place. *)
Theorem generate_with_unparseable_bundle l cfg w base :
  certifi.where_ ≠ destination_file_of cfg →
  files w !! certifi.where_ = Some base →
  x509.load_pem_x509_certificates base = None →
  (extra_ca cfg = [] →
     (generate_certificates_file l cfg w).1 = Ok None
     ∧ files (generate_certificates_file l cfg w).2 !! destination_file_of cfg
       = Some base)
  ∧ (∀ p rest data c,
       extra_ca cfg = p :: rest →
       p ≠ destination_file_of cfg →
       files w !! p = Some data →
       x509.load_pem_x509_certificate data = Some c →
       (generate_certificates_file l cfg w).1 = Raise ValueError
       ∧ files (generate_certificates_file l cfg w).2 !! destination_file_of cfg
         = Some base).
Proof.
  intros Hne Hbase Hbad. split.
  - intros Hnil. rewrite generate_run. cbn zeta.
    rewrite Hbase. destruct (decide _) as [|_]; [done|]. rewrite Hnil.
    cbn. split; [done|]. apply lookup_insert_eq.
  - intros p rest data c Hcons Hp Hdata Hc. rewrite generate_run. cbn zeta.
    rewrite Hbase. destruct (decide _) as [|_]; [done|]. rewrite Hcons.
    cbn [for_each]. unfold bind. rewrite add_ca_run. cbn zeta. cbn [files].
    rewrite lookup_insert_ne by done. rewrite Hdata, Hc.
    rewrite lookup_insert_eq, Hbad. cbn [fst snd files]. split; [done|].
    apply lookup_insert_eq.
Qed.

(** X9.  When the copy of the bundle fails the disk is left as it was and
    no extra is read: a bundle that is the destination file itself raises
    [SameFileError], a missing bundle raises [FileNotFoundError] naming
    it. *)
Theorem generate_copy_failure l cfg w :
  (certifi.where_ = destination_file_of cfg →
   is_Some (files w !! certifi.where_) →
     generate_certificates_file l cfg w
     = (Raise (SameFileError certifi.where_ (destination_file_of cfg)),
        mkWorld (files w)
          (records w ++ start_records l (certificate_directory cfg)
                          certifi.where_ (destination_file_of cfg))))
  ∧ (certifi.where_ ≠ destination_file_of cfg →
     files w !! certifi.where_ = None →
     generate_certificates_file l cfg w
     = (Raise (FileNotFoundError certifi.where_),
        mkWorld (files w)
          (records w ++ start_records l (certificate_directory cfg)
                          certifi.where_ (destination_file_of cfg)))).
Proof.
  split.
  - intros Hsame [base Hbase]. rewrite generate_run. cbn zeta.
    rewrite Hbase. by rewrite decide_True.
  - intros Hne Hnone. rewrite generate_run. cbn zeta. by rewrite Hnone.
Qed.

End certificate_store_more.

(** *** Runs on the sample installation *)

Lemma add_ca_twice_is_once_witness :
  (add_ca_to_certificates_store logger "/etc/extra/b.pem" sample.dest sample.w1).1
  = Ok tt
  ∧ files (add_ca_to_certificates_store logger "/etc/extra/b.pem" sample.dest
             (add_ca_to_certificates_store logger "/etc/extra/b.pem" sample.dest
                sample.w1).2).2 !! sample.dest
    = Some (sample.pem sample.cert_c ++ sample.pem sample.cert_b).
Proof.
  destruct (add_ca_twice_is_once logger "/etc/extra/b.pem" sample.dest sample.w1
              (sample.pem sample.cert_b) sample.cert_b
              (sample.pem sample.cert_c) [sample.cert_c]
              [sample.cert_c; sample.cert_b])
    as [Hfirst Hsecond];
    [discriminate|by vm_compute|by vm_compute|by vm_compute|by vm_compute| |].
  - intros _. split; [by vm_compute|].
    apply elem_of_cons. right. by apply list_elem_of_singleton.
  - split; [exact Hfirst|]. rewrite Hsecond. by vm_compute.
Defined.

Lemma add_ca_needs_a_loadable_store_witness :
  add_ca_to_certificates_store logger "/etc/extra/b.pem" sample.dest sample.w0
  = (Raise (FileNotFoundError sample.dest),
     mkWorld (files sample.w0)
       (records sample.w0 ++ entry_records logger "/etc/extra/b.pem" sample.dest)).
Proof.
  destruct (add_ca_needs_a_loadable_store logger "/etc/extra/b.pem" sample.dest
              sample.w0 (sample.pem sample.cert_b) sample.cert_b)
    as [Hmissing _]; [by vm_compute..|].
  apply Hmissing. by vm_compute.
Defined.

Lemma add_ca_chain_file_duplicates_witness :
  files (add_ca_to_certificates_store logger "/etc/extra/chain.pem" sample.dest
           (mkWorld
              (<["/etc/extra/chain.pem" :=
                   sample.pem sample.cert_b ++ sample.pem sample.cert_c]>
                 (files sample.w1)) [])).2 !! sample.dest
  = Some (sample.pem sample.cert_c
            ++ sample.pem sample.cert_b ++ sample.pem sample.cert_c)
  ∧ ¬ NoDup ([sample.cert_c] ++ [sample.cert_b; sample.cert_c]).
Proof.
  destruct (add_ca_chain_file_duplicates logger "/etc/extra/chain.pem" sample.dest
              (mkWorld
                 (<["/etc/extra/chain.pem" :=
                      sample.pem sample.cert_b ++ sample.pem sample.cert_c]>
                    (files sample.w1)) [])
              (sample.pem sample.cert_b ++ sample.pem sample.cert_c)
              sample.cert_b (sample.pem sample.cert_c) [sample.cert_c]
              [sample.cert_b; sample.cert_c] sample.cert_c)
    as (_ & Hstore & Hdup).
  - by vm_compute.
  - by vm_compute.
  - by vm_compute.
  - by vm_compute.
  - apply sample_not_in_singleton. discriminate.
  - by vm_compute.
  - apply elem_of_cons. right. by apply list_elem_of_singleton.
  - by apply list_elem_of_singleton.
  - split; [exact Hstore|exact Hdup].
Defined.

Lemma generate_overwrites_old_store_witness :
  generate_certificates_file logger
    (sample.ols ["/etc/extra/b.pem"; "/etc/extra/broken.pem"] None 20 1) sample.w0
  = generate_certificates_file logger
      (sample.ols ["/etc/extra/b.pem"; "/etc/extra/broken.pem"] None 20 1)
      (mkWorld (<[sample.dest := sample.pem sample.cert_c]> (files sample.w0))
         (records sample.w0)).
Proof.
  apply generate_overwrites_old_store.
  - vm_compute. discriminate.
  - exists sample.bundle. by vm_compute.
  - intros p Hp. cbn [files]. rewrite lookup_insert_ne; [done|].
    intros Heq. apply Hp. by rewrite <- Heq.
  - reflexivity.
Defined.

Lemma generate_extends_witness :
  match
    generate_certificates_file logger
      (sample.ols ["/etc/extra/broken.pem"] None 20 1) sample.w0
  with
  | (Raise e, w1) =>
      generate_certificates_file logger
        (sample.ols ["/etc/extra/broken.pem"; "/etc/extra/b.pem"] None 20 1)
        sample.w0 = (Raise e, w1)
  | (Ok _, w1) =>
      generate_certificates_file logger
        (sample.ols ["/etc/extra/broken.pem"; "/etc/extra/b.pem"] None 20 1)
        sample.w0
      = match for_each ["/etc/extra/b.pem"]
                (λ q, add_ca_to_certificates_store logger q
                        (destination_file_of
                           (sample.ols ["/etc/extra/broken.pem"] None 20 1))) w1
        with
        | (Ok _, w2) => (Ok None, w2)
        | (Raise e, w2) => (Raise e, w2)
        end
  end.
Proof.
  exact (generate_extends logger
           (sample.ols ["/etc/extra/broken.pem"] None 20 1)
           (sample.ols ["/etc/extra/broken.pem"; "/etc/extra/b.pem"] None 20 1)
           ["/etc/extra/b.pem"] sample.w0 eq_refl eq_refl).
Defined.

Lemma generate_keeps_the_bundle_witness :
  ∃ tail,
    files (generate_certificates_file logger
             (sample.ols ["/etc/extra/b.pem"; "/etc/extra/broken.pem"] None 20 1)
             sample.w0).2 !! sample.dest
    = Some (sample.bundle ++ tail).
Proof.
  assert (Hne : certifi.where_
                ≠ destination_file_of
                    (sample.ols ["/etc/extra/b.pem"; "/etc/extra/broken.pem"]
                       None 20 1)) by (vm_compute; discriminate).
  assert (Hbase : files sample.w0 !! certifi.where_ = Some sample.bundle)
    by (by vm_compute).
  exact (generate_keeps_the_bundle logger
           (sample.ols ["/etc/extra/b.pem"; "/etc/extra/broken.pem"] None 20 1)
           sample.w0 sample.bundle Hne Hbase).
Defined.

Lemma generate_with_unparseable_bundle_witness :
  (generate_certificates_file logger
     (sample.ols ["/etc/extra/b.pem"] None 20 1)
     (mkWorld (<[certifi.where_ := [x41]]> (files sample.w0)) [])).1
  = Raise ValueError
  ∧ (generate_certificates_file logger
       (sample.ols [] None 20 1)
       (mkWorld (<[certifi.where_ := [x41]]> (files sample.w0)) [])).1
    = Ok None.
Proof.
  destruct (generate_with_unparseable_bundle logger
              (sample.ols ["/etc/extra/b.pem"] None 20 1)
              (mkWorld (<[certifi.where_ := [x41]]> (files sample.w0)) []) [x41])
    as [_ Hextra]; [vm_compute; discriminate|by vm_compute|by vm_compute|].
  destruct (generate_with_unparseable_bundle logger
              (sample.ols [] None 20 1)
              (mkWorld (<[certifi.where_ := [x41]]> (files sample.w0)) []) [x41])
    as [Hnone _]; [vm_compute; discriminate|by vm_compute|by vm_compute|].
  split.
  - apply (Hextra "/etc/extra/b.pem" [] (sample.pem sample.cert_b) sample.cert_b);
      [reflexivity|vm_compute; discriminate|by vm_compute|by vm_compute].
  - by apply Hnone.
Defined.

(** ** More on the server launch *)

Section server_launch_more.
Context `{!constants.Values, !tls.Package}.
Implicit Types (w : world) (config : config_model.AppConfig).

Import config_model.

(** The resolvers return or raise without touching a file, and only add
    log records. *)
Lemma get_ssl_version_keeps_files sec_profile w :
  files (get_ssl_version sec_profile w).2 = files w
  ∧ records w `prefix_of` records (get_ssl_version sec_profile w).2.
Proof.
  unfold get_ssl_version, bind, lift, info, emit, ret.
  destruct sec_profile as [[[name|] ver cs]|]; cbn;
    try (split; [done|by apply prefix_app_r]).
  destruct (tls.min_tls_version ver name) as [version|e]; cbn; [|done].
  destruct (tls.ssl_tls_version version) as [v|e]; cbn;
    (split; [done|]); rewrite <- ?(assoc_L (++)); by apply prefix_app_r.
Qed.

Lemma get_ciphers_keeps_files sec_profile w :
  files (get_ciphers sec_profile w).2 = files w
  ∧ records w `prefix_of` records (get_ciphers sec_profile w).2.
Proof.
  unfold get_ciphers, bind, lift, info, emit, ret.
  destruct sec_profile as [[[name|] ver cs]|]; cbn;
    try (split; [done|by apply prefix_app_r]).
  destruct (tls.ciphers_as_string cs name) as [c|e]; cbn; [|done].
  split; [done|by apply prefix_app_r].
Qed.

Lemma start_uvicorn_frame config w :
  files (start_uvicorn config w).2 = files w
  ∧ records w `prefix_of` records (start_uvicorn config w).2.
Proof.
  rewrite start_uvicorn_run. cbn zeta.
  destruct (get_ssl_version_keeps_files
              (tls_security_profile (ols_config config)) w) as [Hf1 Hr1].
  destruct (get_ssl_version _ w) as [[v|e] w1]; cbn [snd] in *; [|done].
  destruct (get_ciphers_keeps_files
              (tls_security_profile (ols_config config)) w1) as [Hf2 Hr2].
  destruct (get_ciphers _ w1) as [[c|e] w2]; cbn [snd] in *;
    (split; [congruence|by etrans]).
Qed.

(** X10.  [start_uvicorn] writes no file and drops no log record,
    whether it launches or raises; the same holds of the two resolvers it
    calls. *)
Theorem start_uvicorn_keeps_files config w :
  (files (start_uvicorn config w).2 = files w
   ∧ records w `prefix_of` records (start_uvicorn config w).2)
  ∧ (∀ sec_profile,
       files (get_ssl_version sec_profile w).2 = files w
       ∧ records w `prefix_of` records (get_ssl_version sec_profile w).2)
  ∧ (∀ sec_profile,
       files (get_ciphers sec_profile w).2 = files w
       ∧ records w `prefix_of` records (get_ciphers sec_profile w).2).
Proof.
  split_and!.
  - apply start_uvicorn_frame.
  - apply start_uvicorn_frame.
  - intros sec_profile. apply get_ssl_version_keeps_files.
  - intros sec_profile. apply get_ciphers_keeps_files.
Qed.

(** X11.  Without a security profile, or with one whose type is not set,
    the launch always happens, whatever the rest of the configuration
    holds and whatever the TLS helpers would do: it passes the default
    version and ciphers and logs the two INFO records of the defaults. *)
Theorem launch_without_profile config w :
  (tls_security_profile (ols_config config) = None
   ∨ ∃ profile,
       tls_security_profile (ols_config config) = Some profile
       ∧ profile_type profile = None) →
  ∃ a,
    start_uvicorn config w
    = (Ok a,
       mkWorld (files w)
         (records w ++
            [logging.mkLogRecord "ols" logging.INFO "Using default SSL version: %s"
               [logging.AInt constants.DEFAULT_SSL_VERSION];
             logging.mkLogRecord "ols" logging.INFO "Allowing default ciphers: %s"
               [logging.AStr constants.DEFAULT_SSL_CIPHERS]]))
    ∧ uvicorn.ssl_version a = constants.DEFAULT_SSL_VERSION
    ∧ uvicorn.ssl_ciphers a = constants.DEFAULT_SSL_CIPHERS.
Proof.
  intros Hunset. rewrite start_uvicorn_run. cbn zeta.
  destruct Hunset as [->|([ty ver cs] & -> & Hty)];
    [|cbn in Hty; subst ty];
    cbn; rewrite <- (assoc_L (++)); eexists; split_and!; reflexivity.
Qed.

(** X12.  Whether the launch happens depends on the security profile
    alone.  Two configurations with the same profile either both raise,
    the same exception in the same world, or both launch, with the same
    version and ciphers: no key path, flag, worker count or log level is
    checked. *)
Theorem launch_outcome_depends_on_profile config1 config2 w :
  tls_security_profile (ols_config config1)
  = tls_security_profile (ols_config config2) →
  match start_uvicorn config1 w, start_uvicorn config2 w with
  | (Ok a1, w1), (Ok a2, w2) =>
      w1 = w2
      ∧ uvicorn.ssl_version a1 = uvicorn.ssl_version a2
      ∧ uvicorn.ssl_ciphers a1 = uvicorn.ssl_ciphers a2
  | (Raise e1, w1), (Raise e2, w2) => e1 = e2 ∧ w1 = w2
  | _, _ => False
  end.
Proof.
  intros Hprofile. rewrite !start_uvicorn_run. cbn zeta. rewrite Hprofile.
  destruct (get_ssl_version _ w) as [[v|e] w1]; [|done].
  destruct (get_ciphers _ w1) as [[c|e] w2]; done.
Qed.

(** X13.  With a profile whose type is set, a launch passes what the TLS
    helpers return and never a default: the version is
    [tls.ssl_tls_version] of [tls.min_tls_version] of the profile, the
    ciphers are [tls.ciphers_as_string] of the profile, and the three INFO
    records that name them are logged in this order. *)
Theorem launch_uses_the_profile config w profile name a w' :
  tls_security_profile (ols_config config) = Some profile →
  profile_type profile = Some name →
  start_uvicorn config w = (Ok a, w') →
  ∃ version,
    tls.min_tls_version (min_tls_version profile) name = Ok version
    ∧ tls.ssl_tls_version version = Ok (uvicorn.ssl_version a)
    ∧ tls.ciphers_as_string (ciphers profile) name = Ok (uvicorn.ssl_ciphers a)
    ∧ w' = mkWorld (files w)
             (records w ++
                [logging.mkLogRecord "ols" logging.INFO "min TLS version: %s"
                   [logging.AStr version];
                 logging.mkLogRecord "ols" logging.INFO "Using SSL version: %s"
                   [logging.AInt (uvicorn.ssl_version a)];
                 logging.mkLogRecord "ols" logging.INFO
                   "Allowing following ciphers: %s"
                   [logging.AStr (uvicorn.ssl_ciphers a)]]).
Proof.
  intros Hprofile Hname. rewrite start_uvicorn_run. cbn zeta. rewrite Hprofile.
  destruct profile as [ty ver cs]. cbn in Hname. subst ty.
  unfold get_ssl_version, get_ciphers, bind, lift, info, emit, ret. cbn.
  destruct (tls.min_tls_version ver name) as [version|e] eqn:Hmin; cbn; [|done].
  destruct (tls.ssl_tls_version version) as [v|e] eqn:Hver; cbn; [|done].
  destruct (tls.ciphers_as_string cs name) as [c|e] eqn:Hcs; cbn; [|done].
  intros [= <- <-]. cbn [uvicorn.ssl_version uvicorn.ssl_ciphers].
  exists version. split_and!; [done..|].
  by rewrite <- !(assoc_L (++)).
Qed.

End server_launch_more.

Lemma launch_without_profile_witness :
  ∃ a w',
    start_uvicorn
      (sample.app_config false false
         (Some (sample.profile None (Some "bogus") None)) 20 1) sample.w0
    = (Ok a, w')
    ∧ uvicorn.ssl_version a = 17 ∧ uvicorn.ssl_ciphers a = "TLSv1".
Proof.
  destruct (launch_without_profile
              (sample.app_config false false
                 (Some (sample.profile None (Some "bogus") None)) 20 1) sample.w0)
    as (a & Hrun & Hv & Hc).
  { right. exists (sample.profile None (Some "bogus") None). by split. }
  exists a. eexists. split; [exact Hrun|]. split; [exact Hv|exact Hc].
Defined.

Lemma launch_outcome_depends_on_profile_witness :
  match
    start_uvicorn
      (sample.app_config true true
         (Some (sample.profile (Some "ultramodern") None None)) 10 4) sample.w0,
    start_uvicorn
      (sample.app_config false false
         (Some (sample.profile (Some "ultramodern") None None)) 20 1) sample.w0
  with
  | (Ok a1, w1), (Ok a2, w2) =>
      w1 = w2
      ∧ uvicorn.ssl_version a1 = uvicorn.ssl_version a2
      ∧ uvicorn.ssl_ciphers a1 = uvicorn.ssl_ciphers a2
  | (Raise e1, w1), (Raise e2, w2) => e1 = e2 ∧ w1 = w2
  | _, _ => False
  end.
Proof.
  exact (launch_outcome_depends_on_profile
           (sample.app_config true true
              (Some (sample.profile (Some "ultramodern") None None)) 10 4)
           (sample.app_config false false
              (Some (sample.profile (Some "ultramodern") None None)) 20 1)
           sample.w0 eq_refl).
Defined.

Lemma launch_uses_the_profile_witness :
  ∃ a w',
    start_uvicorn
      (sample.app_config false false
         (Some (sample.profile (Some "old") (Some "VersionTLS12") None)) 20 1)
      sample.w0 = (Ok a, w')
    ∧ tls.ssl_tls_version "VersionTLS12" = Ok (uvicorn.ssl_version a)
    ∧ uvicorn.ssl_version a = 771.
Proof.
  assert (Hrun : ∃ a w',
            start_uvicorn
              (sample.app_config false false
                 (Some (sample.profile (Some "old") (Some "VersionTLS12") None))
                 20 1) sample.w0 = (Ok a, w')).
  { eexists _, _. vm_compute. reflexivity. }
  destruct Hrun as (a & w' & Hrun). exists a, w'. split; [exact Hrun|].
  destruct (launch_uses_the_profile
              (sample.app_config false false
                 (Some (sample.profile (Some "old") (Some "VersionTLS12") None)) 20 1)
              sample.w0
              (sample.profile (Some "old") (Some "VersionTLS12") None) "old"
              a w' eq_refl eq_refl Hrun)
    as (version & Hmin & Hver & _).
  vm_compute in Hmin. injection Hmin as <-.
  split; [exact Hver|].
  vm_compute in Hver. injection Hver as Hv. exact (eq_sym Hv).
Defined.

(** ** The environment and the start-up sequence *)

Section startup.
Context `{!constants.Values, !certifi.Package, !x509.Package, !tls.Package}.
Context `{!tempfile.Package, !ols.Package}.
Implicit Types (env : gmap string string) (s : process).

Import config_model.

(** X14.  [configure_gradio_ui_envs] switches the analytics off and
    points Matplotlib at the [matplotlib] entry of the temporary directory,
    replacing whatever the two variables held; it touches no other
    variable, and a second call changes nothing. *)
Theorem configure_gradio_ui_envs_sets env :
  configure_gradio_ui_envs env !! "GRADIO_ANALYTICS_ENABLED" = Some "false"
  ∧ configure_gradio_ui_envs env !! "MPLCONFIGDIR"
    = Some (os_path_join tempfile.gettempdir "matplotlib")
  ∧ (∀ k, k ≠ "GRADIO_ANALYTICS_ENABLED" → k ≠ "MPLCONFIGDIR" →
          configure_gradio_ui_envs env !! k = env !! k)
  ∧ configure_gradio_ui_envs (configure_gradio_ui_envs env)
    = configure_gradio_ui_envs env.
Proof.
  unfold configure_gradio_ui_envs. cbn zeta. split_and!.
  - rewrite lookup_insert_ne by done. apply lookup_insert_eq.
  - apply lookup_insert_eq.
  - intros k Hk1 Hk2. by rewrite !lookup_insert_ne.
  - apply map_eq. intros k.
    destruct (decide (k = "MPLCONFIGDIR")) as [->|Hk2];
      [by rewrite !lookup_insert_eq|].
    rewrite !(lookup_insert_ne _ "MPLCONFIGDIR") by done.
    destruct (decide (k = "GRADIO_ANALYTICS_ENABLED")) as [->|Hk1];
      [by rewrite !lookup_insert_eq|].
    by rewrite !lookup_insert_ne.
Qed.

(** X15.  [configure_hugging_face_envs] sets the two variables together
    or not at all.  When the configuration is there, has a
    [reference_content] that is not [None], and that has an
    [embeddings_model_path] that is neither [None] nor empty, the result is
    the environment with [TRANSFORMERS_CACHE] set to that path and
    [TRANSFORMERS_OFFLINE] set to [1].  In every other case the environment
    is returned as it was.  No other variable changes. *)
Theorem configure_hugging_face_envs_both_or_none ols_config env :
  (∀ the_config content p,
     ols_config = Some the_config →
     objects.reference_content the_config = objects.Present (Some content) →
     objects.embeddings_model_path content = objects.Present (Some p) →
     p ≠ "" →
     configure_hugging_face_envs ols_config env
     = <["TRANSFORMERS_OFFLINE" := "1"]> (<["TRANSFORMERS_CACHE" := p]> env)
     ∧ configure_hugging_face_envs ols_config env !! "TRANSFORMERS_CACHE" = Some p
     ∧ configure_hugging_face_envs ols_config env !! "TRANSFORMERS_OFFLINE"
       = Some "1")
  ∧ ((¬ ∃ the_config content p,
          ols_config = Some the_config
          ∧ objects.reference_content the_config = objects.Present (Some content)
          ∧ objects.embeddings_model_path content = objects.Present (Some p)
          ∧ p ≠ "") →
     configure_hugging_face_envs ols_config env = env)
  ∧ (∀ k, k ≠ "TRANSFORMERS_CACHE" → k ≠ "TRANSFORMERS_OFFLINE" →
          configure_hugging_face_envs ols_config env !! k = env !! k).
Proof.
  split_and!.
  - intros the_config content p -> Hcontent Hpath Hp.
    unfold configure_hugging_face_envs. rewrite Hcontent, Hpath.
    unfold truthy_path. rewrite bool_decide_eq_false_2 by done. cbn.
    split_and!; [done| |apply lookup_insert_eq].
    rewrite lookup_insert_ne by done. apply lookup_insert_eq.
  - intros Hnot. unfold configure_hugging_face_envs.
    destruct ols_config as [the_config|]; [|done].
    destruct (objects.reference_content the_config)
      as [|[content|]] eqn:Hcontent; [done| |done].
    destruct (objects.embeddings_model_path content)
      as [|[p|]] eqn:Hpath; [done| |done].
    unfold truthy_path.
    destruct (bool_decide (p = "")) eqn:Hp; cbn; [done|].
    apply bool_decide_eq_false in Hp. destruct Hnot. eauto 10.
  - intros k Hk1 Hk2. unfold configure_hugging_face_envs.
    repeat case_match; try done. by rewrite !lookup_insert_ne.
Qed.

(** The main block, case by case. *)
Lemma main_run s :
  main s =
  let env1 := configure_gradio_ui_envs (environ s) in
  let cfg_file := default "rcsconfig.yaml" (env1 !! "RCS_CONFIG_FILE") in
  match ols.reload_from_yaml_file cfg_file (files (os_world s)) with
  | Raise e => (Raise e, mkProcess env1 (os_world s) (threads s))
  | Ok config =>
    let fields := objects.fields (objects.ols_config config) in
    match ols.configure_logging (logging_config fields) with
    | Raise e => (Raise e, mkProcess env1 (os_world s) (threads s))
    | Ok _ =>
      let env2 :=
        configure_hugging_face_envs (Some (objects.ols_config config)) env1 in
      let w1 :=
        mkWorld (files (os_world s))
          (records (os_world s) ++
             [logging.mkLogRecord "ols" logging.INFO "Config loaded from %s"
                [logging.AStr (ols.resolve cfg_file)]]) in
      match generate_certificates_file logger fields w1 with
      | (Raise e, w2) => (Raise e, mkProcess env2 w2 (threads s))
      | (Ok _, w2) =>
        match ols.use_k8s_auth fields with
        | Raise e => (Raise e, mkProcess env2 w2 (threads s))
        | Ok k8s =>
          let w3 :=
            if k8s : bool then
              mkWorld (files w2)
                (records w2 ++
                   [logging.mkLogRecord "ols" logging.INFO
                      "Initializing k8s auth" []])
            else w2 in
          match ols.query_redactor config with
          | Raise e => (Raise e, mkProcess env2 w3 (threads s))
          | Ok _ =>
            match start_uvicorn (objects.app_config config) w3 with
            | (r, w4) => (r, mkProcess env2 w4 (threads s ++ ["load_index"]))
            end
          end
        end
      end
    end
  end.
Proof.
  unfold main, bindP, on_environ, environ_get, call, in_world, thread_start, retP.
  destruct s as [env w ths]. cbn zeta. cbn [environ os_world threads].
  destruct (ols.reload_from_yaml_file _ _) as [config|e]; [|reflexivity].
  destruct (ols.configure_logging _) as [[]|e]; [|reflexivity].
  unfold info at 1, emit. cbn [environ os_world threads files records logging.name].
  fold logger.
  destruct (generate_certificates_file logger _ _) as [[r|e] w2];
    [|reflexivity].
  cbn [environ os_world threads].
  destruct (ols.use_k8s_auth _) as [[|]|e]; [| |reflexivity];
    unfold info, emit; cbn [environ os_world threads logging.name];
    destruct (ols.query_redactor config) as [[]|e]; try reflexivity.
Qed.

Lemma configure_gradio_ui_envs_values env :
  configure_gradio_ui_envs env !! "GRADIO_ANALYTICS_ENABLED" = Some "false"
  ∧ configure_gradio_ui_envs env !! "MPLCONFIGDIR"
    = Some (os_path_join tempfile.gettempdir "matplotlib").
Proof.
  unfold configure_gradio_ui_envs. cbn zeta. split.
  - rewrite lookup_insert_ne by done. apply lookup_insert_eq.
  - apply lookup_insert_eq.
Qed.

Lemma configure_gradio_ui_envs_frame env k :
  k ≠ "GRADIO_ANALYTICS_ENABLED" → k ≠ "MPLCONFIGDIR" →
  configure_gradio_ui_envs env !! k = env !! k.
Proof.
  intros Hk1 Hk2. unfold configure_gradio_ui_envs. cbn zeta.
  by rewrite !lookup_insert_ne.
Qed.

Lemma configure_hugging_face_envs_frame ols_config env k :
  k ≠ "TRANSFORMERS_CACHE" → k ≠ "TRANSFORMERS_OFFLINE" →
  configure_hugging_face_envs ols_config env !! k = env !! k.
Proof.
  intros Hk1 Hk2. unfold configure_hugging_face_envs.
  repeat case_match; try done. by rewrite !lookup_insert_ne.
Qed.

Lemma generate_returns_with_store l cfg w r w' :
  generate_certificates_file l cfg w = (Ok r, w') →
  is_Some (files w' !! destination_file_of cfg).
Proof.
  rewrite generate_run. cbn zeta.
  destruct (files w !! certifi.where_) as [base|]; [|done].
  destruct (decide _); [done|].
  set (w1 := mkWorld _ _).
  pose proof (for_each_add_ca_keeps_store l (destination_file_of cfg)
                (extra_ca cfg) w1) as Hkeep.
  destruct (for_each _ _ w1) as [[[]|e] w2]; [|done].
  intros [= _ <-]. apply Hkeep. subst w1. cbn [files].
  rewrite lookup_insert_eq. eauto.
Qed.

(** The environment the main block ends with. *)
Lemma main_environ s :
  environ (main s).2 = configure_gradio_ui_envs (environ s)
  ∨ ∃ config,
      environ (main s).2
      = configure_hugging_face_envs (Some config)
          (configure_gradio_ui_envs (environ s)).
Proof.
  rewrite main_run. cbn zeta.
  destruct (ols.reload_from_yaml_file _ _) as [config|e]; [|by left].
  destruct (ols.configure_logging _) as [[]|e]; [|by left].
  right. exists (objects.ols_config config).
  destruct (generate_certificates_file _ _ _) as [[r|e] w2]; [|done].
  destruct (ols.use_k8s_auth _) as [k8s|e]; [|done].
  destruct (ols.query_redactor _) as [[]|e]; [|done].
  by destruct (start_uvicorn _ _).
Qed.

(** X16.  However the main block ends, the environment it leaves has the
    analytics switched off and [MPLCONFIGDIR] set, and differs from the
    one it started with in at most these two variables and the two
    [TRANSFORMERS] ones. *)
Theorem main_environment s :
  environ (main s).2 !! "GRADIO_ANALYTICS_ENABLED" = Some "false"
  ∧ environ (main s).2 !! "MPLCONFIGDIR"
    = Some (os_path_join tempfile.gettempdir "matplotlib")
  ∧ (∀ k,
       k ≠ "GRADIO_ANALYTICS_ENABLED" → k ≠ "MPLCONFIGDIR" →
       k ≠ "TRANSFORMERS_CACHE" → k ≠ "TRANSFORMERS_OFFLINE" →
       environ (main s).2 !! k = environ s !! k).
Proof.
  destruct (configure_gradio_ui_envs_values (environ s)) as [Hg Hm].
  destruct (main_environ s) as [->|[config ->]].
  - split_and!; [done..|]. intros k Hk1 Hk2 _ _.
    by apply configure_gradio_ui_envs_frame.
  - rewrite !configure_hugging_face_envs_frame by done.
    split_and!; [done..|]. intros k Hk1 Hk2 Hk3 Hk4.
    rewrite configure_hugging_face_envs_frame by done.
    by apply configure_gradio_ui_envs_frame.
Qed.

(** X17.  The configuration is read from the file named by
    [RCS_CONFIG_FILE], or from [rcsconfig.yaml] when the variable is not
    set.  If loading it raises, the main block raises the same exception
    at once: the Gradio variables are set by then, but no file is written,
    no record logged, no thread started and no server launched. *)
Theorem main_stops_without_configuration s e :
  ols.reload_from_yaml_file
    (default "rcsconfig.yaml" (environ s !! "RCS_CONFIG_FILE"))
    (files (os_world s)) = Raise e →
  main s
  = (Raise e,
     mkProcess (configure_gradio_ui_envs (environ s)) (os_world s) (threads s)).
Proof.
  intros Hload. rewrite main_run. cbn zeta.
  rewrite configure_gradio_ui_envs_frame by done. by rewrite Hload.
Qed.

(** X18.  The index thread is started at most once, and only after the
    configuration was loaded and the trust store written.  Either the
    main block raises with no thread started, or the thread was started,
    the store file of the loaded configuration exists, the environment is
    the prepared one, and the outcome of the main block (the launch, or
    the exception of the profile resolution) is that of [start_uvicorn]:
    an unresolvable TLS profile is met last. *)
Theorem main_starts_the_thread_last s :
  (threads (main s).2 = threads s ∧ ∃ e, (main s).1 = Raise e)
  ∨ (threads (main s).2 = threads s ++ ["load_index"]
     ∧ ∃ config w,
         ols.reload_from_yaml_file
           (default "rcsconfig.yaml" (environ s !! "RCS_CONFIG_FILE"))
           (files (os_world s)) = Ok config
         ∧ environ (main s).2
           = configure_hugging_face_envs (Some (objects.ols_config config))
               (configure_gradio_ui_envs (environ s))
         ∧ is_Some (files (os_world (main s).2)
                      !! destination_file_of
                           (objects.fields (objects.ols_config config)))
         ∧ start_uvicorn (objects.app_config config) w
           = ((main s).1, os_world (main s).2)).
Proof.
  rewrite main_run. cbn zeta.
  rewrite configure_gradio_ui_envs_frame by done.
  destruct (ols.reload_from_yaml_file _ _) as [config|e] eqn:Hload;
    [|left; eauto].
  destruct (ols.configure_logging _) as [[]|e]; [|left; eauto].
  destruct (generate_certificates_file _ _ _) as [[r|e] w2] eqn:Hgen;
    [|left; eauto].
  apply generate_returns_with_store in Hgen.
  destruct (ols.use_k8s_auth _) as [k8s|e]; [|left; eauto].
  destruct (ols.query_redactor _) as [[]|e]; [|left; eauto].
  set (w3 := if k8s then _ else w2).
  assert (Hw3 : files w3 = files w2) by (subst w3; by destruct k8s).
  pose proof (start_uvicorn_frame (objects.app_config config) w3) as [Hfiles _].
  destruct (start_uvicorn _ w3) as [r' w4] eqn:Hrun. cbn [fst snd] in *.
  right. split; [done|]. exists config, w3. split_and!; [done..| |done].
  cbn [os_world]. by rewrite Hfiles, Hw3.
Qed.

End startup.

#[local] Existing Instance sample_main.tempfile_package.
#[local] Existing Instance sample_main.ols_package.

Lemma main_stops_without_configuration_witness :
  main (sample_main.boot None)
  = (Raise (FileNotFoundError "rcsconfig.yaml"),
     mkProcess
       (<["MPLCONFIGDIR" := "/tmp/matplotlib"]>
          (<["GRADIO_ANALYTICS_ENABLED" := "false"]>
             (environ (sample_main.boot None))))
       (os_world (sample_main.boot None)) []).
Proof.
  exact (main_stops_without_configuration (sample_main.boot None)
           (FileNotFoundError "rcsconfig.yaml") eq_refl).
Defined.

(** A run that launches, and a run that meets an unknown profile after
    the store is written and the thread started. *)
Example main_launches :
  ∃ a s',
    main (sample_main.boot (Some "/etc/rcs/config.yaml")) = (Ok a, s')
    ∧ uvicorn.port a = 8443 ∧ uvicorn.workers a = 2
    ∧ threads s' = ["load_index"]
    ∧ environ s' !! "TRANSFORMERS_CACHE" = Some "/models/embeddings"
    ∧ environ s' !! "GRADIO_ANALYTICS_ENABLED" = Some "false"
    ∧ files (os_world s') !! sample.dest
      = Some (sample.bundle ++ sample.pem sample.cert_b).
Proof.
  eexists _, _. split; [vm_compute; reflexivity|].
  split_and!; by vm_compute.
Qed.

Example main_meets_the_profile_last :
  ∃ s',
    main (sample_main.boot (Some "/etc/rcs/strict.yaml"))
    = (Raise ConfigurationError, s')
    ∧ threads s' = ["load_index"]
    ∧ files (os_world s') !! sample.dest
      = Some (sample.bundle ++ sample.pem sample.cert_b).
Proof.
  eexists. split; [vm_compute; reflexivity|].
  split; by vm_compute.
Qed.
